(** * VirtualList: the list orchestrator of taro-list

    A shallow embedding of [src/components/List/VirtualList/index.tsx]:
    the [VirtualList] component (scroll offset, dirty flag, style cache,
    render-list production) together with the collaborators it drives,
    the size/position manager and the data manager.

    JavaScript numbers are taken as integers ([Z]); objects used as maps
    are [gmap]s; a method that mutates [this] is a function from the
    component state to a result and the next state, and a [throw] keeps
    the mutations made before it. *)

From Stdlib Require Import ZArith Lia.
From stdpp Require Import gmap strings list fin_maps.

Open Scope Z_scope.

(** ** Exceptions *)

Inductive Error :=
| IndexOutOfRange (index : Z)
| TypeError.

Inductive result (A : Type) :=
| Ok (a : A)
| Throw (e : Error).
Arguments Ok {A} a.
Arguments Throw {A} e.

(** ** The size/position manager ([./SizeAndPositionManger]) *)

Module SizeAndPositionManager.

(** Modelled from the spec: the SizeRecord of spec 3, "{offset, size} for
    one index", which the missing class returns. *)
Record SizeAndPosition := { offset : Z; size : Z }.

(** Modelled from the spec: the state of the SizeAndPositionManager
    class, which is imported by the component but is not part of the
    sources (spec 3 and 4.1): the configuration, the lazily
    extended table of cumulative offsets and [lastMeasuredIndex]
    ([-1] when nothing is measured). *)
Record t := {
  itemCount : Z;
  itemSizeGetter : Z -> option Z;
  estimatedSizeGetter : Z -> Z;
  itemSizeAndPositionData : gmap Z SizeAndPosition;
  lastMeasuredIndex : Z
}.

(** Modelled from the spec: the partial configuration that updateConfig
    of the missing class merges; an absent key is [None]. *)
Record Config := {
  cfg_itemCount : option Z;
  cfg_itemSizeGetter : option (Z -> option Z);
  cfg_estimatedSizeGetter : option (Z -> Z)
}.

(** Modelled from the spec: the VisibleRange of spec 3, "{start, end}
    inclusive indices to render, or empty"; the component tests both keys
    against [undefined]. *)
Record VisibleRange := { start : option Z; end_ : option Z }.

(** Modelled from the spec: "{offset:0, size:0}", the record of the
    missing class when nothing is measured. *)
Definition zero : SizeAndPosition := {| offset := 0; size := 0 |}.

(** Modelled from the spec: the constructor of the missing class,
    "constructed with {itemCount, itemSizeGetter, estimatedSizeGetter}". *)
Definition create (count : Z) (isg : Z -> option Z) (esg : Z -> Z) : t :=
  {| itemCount := count; itemSizeGetter := isg; estimatedSizeGetter := esg;
     itemSizeAndPositionData := ∅; lastMeasuredIndex := -1 |}.

(** Modelled from the spec: getSizeAndPositionOfLastMeasuredItem of the
    missing class, "the cached SizeRecord at lastMeasuredIndex, or
    {offset:0, size:0} if none measured". *)
Definition getSizeAndPositionOfLastMeasuredItem (m : t) : SizeAndPosition :=
  default zero (itemSizeAndPositionData m !! lastMeasuredIndex m).

(** Modelled from the spec: one step of the sequential fill of
    getSizeAndPositionForIndex, "offset = previous offset+size; size =
    itemSizeGetter(idx) if defined else estimatedSizeGetter(idx)", which
    "advances lastMeasuredIndex" when the getter returned a real size. *)
Definition measure (idx : Z) (prev : SizeAndPosition) (m : t) : SizeAndPosition * t :=
  let off := offset prev + size prev in
  match itemSizeGetter m idx with
  | Some sz =>
      let r := {| offset := off; size := sz |} in
      (r, {| itemCount := itemCount m; itemSizeGetter := itemSizeGetter m;
             estimatedSizeGetter := estimatedSizeGetter m;
             itemSizeAndPositionData := <[idx := r]> (itemSizeAndPositionData m);
             lastMeasuredIndex := idx |})
  | None =>
      let r := {| offset := off; size := estimatedSizeGetter m idx |} in
      (r, {| itemCount := itemCount m; itemSizeGetter := itemSizeGetter m;
             estimatedSizeGetter := estimatedSizeGetter m;
             itemSizeAndPositionData := <[idx := r]> (itemSizeAndPositionData m);
             lastMeasuredIndex := lastMeasuredIndex m |})
  end.

(** Modelled from the spec: the fill of the missing class, [n] steps
    "sequentially from lastMeasuredIndex+1 through i". *)
Fixpoint fill (n : nat) (idx : Z) (prev : SizeAndPosition) (m : t) : SizeAndPosition * t :=
  match n with
  | O => (prev, m)
  | S n' => let '(r, m') := measure idx prev m in fill n' (idx + 1) r m'
  end.

(** Modelled from the spec: the lookup of the missing class without its
    range check: a cached record at or below [lastMeasuredIndex], a
    sequential fill from [lastMeasuredIndex + 1] above it. *)
Definition sizeAndPositionAt (index : Z) (m : t) : SizeAndPosition * t :=
  if index <=? lastMeasuredIndex m
  then (default zero (itemSizeAndPositionData m !! index), m)
  else fill (Z.to_nat (index - lastMeasuredIndex m)) (lastMeasuredIndex m + 1)
            (getSizeAndPositionOfLastMeasuredItem m) m.

(** Modelled from the spec: getSizeAndPositionForIndex of the missing
    class.  It "requires 0 <= i < itemCount" and otherwise "signals an
    IndexOutOfRange condition" (the fail-fast choice of spec 7). *)
Definition getSizeAndPositionForIndex (index : Z) (m : t) : result SizeAndPosition * t :=
  if (index <? 0) || (itemCount m <=? index)
  then (Throw (IndexOutOfRange index), m)
  else let '(r, m') := sizeAndPositionAt index m in (Ok r, m').

(** Modelled from the spec: getTotalSize of the missing class,
    "offset(lastMeasuredIndex) + size(lastMeasuredIndex) + (itemCount - 1
    - lastMeasuredIndex) x EstimatedSize, clamped to 0 when itemCount =
    0"; the estimate is the getter's value for the first unmeasured
    index. *)
Definition getTotalSize (m : t) : Z :=
  if itemCount m =? 0 then 0
  else
    let l := getSizeAndPositionOfLastMeasuredItem m in
    offset l + size l
    + (itemCount m - 1 - lastMeasuredIndex m) * estimatedSizeGetter m (lastMeasuredIndex m + 1).

(** Modelled from the spec: the search for [start] in the missing class,
    "the smallest index whose offset+size > currentOffset" among [idx,
    idx + n); the index before [idx + n] when there is none. *)
Fixpoint findStart (n : nat) (idx : Z) (currentOffset : Z) (m : t) : Z * t :=
  match n with
  | O => (idx - 1, m)
  | S n' =>
      let '(r, m') := sizeAndPositionAt idx m in
      if currentOffset <? offset r + size r then (idx, m')
      else findStart n' (idx + 1) currentOffset m'
  end.

(** Modelled from the spec: the search for [end] in the missing class,
    which "continue[s] scanning forward" from [idx] over at most [n]
    further indices for the last one whose offset is below [maxOffset]. *)
Fixpoint findEnd (n : nat) (idx : Z) (maxOffset : Z) (m : t) : Z * t :=
  match n with
  | O => (idx, m)
  | S n' =>
      let '(r, m') := sizeAndPositionAt (idx + 1) m in
      if offset r <? maxOffset then findEnd n' (idx + 1) maxOffset m'
      else (idx, m')
  end.

(** Modelled from the spec: the clamping of the missing class, "clamp
    both to [0, itemCount-1]". *)
Definition clamp (lo hi v : Z) : Z := Z.max lo (Z.min hi v).

(** Modelled from the spec: getVisibleRange of the missing class.  It
    "returns empty when itemCount = 0 or containerSize <= 0"; otherwise
    [start] is "the smallest index whose offset+size > currentOffset",
    [end] "the largest index whose offset < currentOffset+containerSize",
    overscan is subtracted and added, and both are clamped "to [0,
    itemCount-1]".  The search measures the indices it visits in
    increasing order. *)
Definition getVisibleRange (containerSize currentOffset overscan : Z) (m : t)
  : VisibleRange * t :=
  if (itemCount m =? 0) || (containerSize <=? 0)
  then ({| start := None; end_ := None |}, m)
  else
    let '(s, m1) := findStart (Z.to_nat (itemCount m)) 0 currentOffset m in
    let '(e, m2) := findEnd (Z.to_nat (itemCount m - 1 - s)) s
                            (currentOffset + containerSize) m1 in
    ({| start := Some (clamp 0 (itemCount m - 1) (s - overscan));
        end_ := Some (clamp 0 (itemCount m - 1) (e + overscan)) |}, m2).

(** Modelled from the spec: resetItem of the missing class.
    "Invalidating index k sets lastMeasuredIndex = min(lastMeasuredIndex,
    k-1) and discards any cached offsets for indices >= k". *)
Definition resetItem (index : Z) (m : t) : t :=
  {| itemCount := itemCount m; itemSizeGetter := itemSizeGetter m;
     estimatedSizeGetter := estimatedSizeGetter m;
     itemSizeAndPositionData :=
       filter (λ kv, kv.1 < index) (itemSizeAndPositionData m);
     lastMeasuredIndex := Z.min (lastMeasuredIndex m) (index - 1) |}.

(** Modelled from the spec: updateConfig of the missing class, which
    "merges itemCount/itemSizeGetter/estimatedSizeGetter; if itemCount
    shrinks, clamps lastMeasuredIndex to itemCount-1; does not itself
    clear the style cache". *)
Definition updateConfig (c : Config) (m : t) : t :=
  {| itemCount := default (itemCount m) (cfg_itemCount c);
     itemSizeGetter := default (itemSizeGetter m) (cfg_itemSizeGetter c);
     estimatedSizeGetter := default (estimatedSizeGetter m) (cfg_estimatedSizeGetter c);
     itemSizeAndPositionData := itemSizeAndPositionData m;
     lastMeasuredIndex :=
       match cfg_itemCount c with
       | Some n => if n <? itemCount m
                   then Z.min (lastMeasuredIndex m) (n - 1)
                   else lastMeasuredIndex m
       | None => lastMeasuredIndex m
       end |}.

End SizeAndPositionManager.

Module SAPM := SizeAndPositionManager.


(** ** [./types] *)

Inductive DIRECTION := HORIZONTAL | VERTICAL.

Inductive SizeProp := prop_width | prop_height.
Inductive PositionProp := prop_left | prop_top.

(** Modelled from the spec: the [sizeProp] table of [./types], which names
    the style property that holds the extent along the scroll axis of each
    scroll direction (height when scrolling vertically, width when
    scrolling horizontally). *)
Definition sizeProp (d : DIRECTION) : SizeProp :=
  match d with VERTICAL => prop_height | HORIZONTAL => prop_width end.

(** Modelled from the spec: the [positionProp] table of [./types], which
    names the style property that holds the offset along the scroll axis
    (top when scrolling vertically, left when scrolling horizontally). *)
Definition positionProp (d : DIRECTION) : PositionProp :=
  match d with VERTICAL => prop_top | HORIZONTAL => prop_left end.

(** Modelled from the spec: [DEFAULT_ZINDEX] of [./types], the "elevated
    layering value" of a sticky item.  Its number is not in the source, so
    it stays a symbol next to the other value the code writes, ['auto']. *)
Inductive ZIndex := zIndex_auto | DEFAULT_ZINDEX.

(** ** Item styles *)

Inductive ItemStylePosition := sticky | absolute.

(** A style value of type [number | string]. *)
Inductive CssValue := Num (n : Z) | Str (s : string).

(** [ItemStyle]; [STYLE_ITEM] is the same object without a [zIndex]. *)
Record ItemStyle := {
  position : ItemStylePosition;
  width : CssValue;
  height : CssValue;
  left : Z;
  top : Z;
  zIndex : option ZIndex
}.

Definition STYLE_ITEM : ItemStyle :=
  {| position := absolute; width := Str "100%"; height := Str "auto";
     left := 0; top := 0; zIndex := None |}.

(** The computed keys [[positionProp[d]]: v] and [[sizeProp[d]]: v] of an
    object literal, and the two plain keys written after the spread. *)
Definition setPosition (k : PositionProp) (v : Z) (s : ItemStyle) : ItemStyle :=
  match k with
  | prop_left => {| position := position s; width := width s; height := height s;
                    left := v; top := top s; zIndex := zIndex s |}
  | prop_top => {| position := position s; width := width s; height := height s;
                   left := left s; top := v; zIndex := zIndex s |}
  end.

Definition setSize (k : SizeProp) (v : CssValue) (s : ItemStyle) : ItemStyle :=
  match k with
  | prop_width => {| position := position s; width := v; height := height s;
                     left := left s; top := top s; zIndex := zIndex s |}
  | prop_height => {| position := position s; width := width s; height := v;
                      left := left s; top := top s; zIndex := zIndex s |}
  end.

Definition setZIndex (z : ZIndex) (s : ItemStyle) : ItemStyle :=
  {| position := position s; width := width s; height := height s;
     left := left s; top := top s; zIndex := Some z |}.

Definition setStylePosition (p : ItemStylePosition) (s : ItemStyle) : ItemStyle :=
  {| position := p; width := width s; height := height s;
     left := left s; top := top s; zIndex := zIndex s |}.

(** The reading side of the two tables: the offset and the extent along
    the scroll axis, and the extent across it. *)
Definition scrollAxisOffset (d : DIRECTION) (s : ItemStyle) : Z :=
  match positionProp d with prop_left => left s | prop_top => top s end.

Definition scrollAxisSize (d : DIRECTION) (s : ItemStyle) : CssValue :=
  match sizeProp d with prop_width => width s | prop_height => height s end.

Definition crossAxisSize (d : DIRECTION) (s : ItemStyle) : CssValue :=
  match sizeProp d with prop_width => height s | prop_height => width s end.

(** Modelled from the spec: [normalizeStyle] and [normalizeValue] of
    [./utils], the "CSS-unit normalization" that the spec leaves to an
    external collaborator.  What they do to a value is not in the source,
    so each stays an uninterpreted wrapper around its argument. *)
Inductive NormalizedStyle := normalizeStyle (raw : ItemStyle).

Inductive NormalizedValue := normalizeValue (v : Z).

Definition raw (s : NormalizedStyle) : ItemStyle :=
  match s with normalizeStyle r => r end.

(** The object literal of [getStyle], lines 233-246. *)
Definition itemStyle (d : DIRECTION) (isSticky : bool) (sp : SAPM.SizeAndPosition)
  : ItemStyle :=
  if isSticky
  then setStylePosition sticky
         (setZIndex DEFAULT_ZINDEX
            (setSize (sizeProp d) (Num (SAPM.size sp))
               (setPosition (positionProp d) 0 STYLE_ITEM)))
  else setZIndex zIndex_auto
         (setSize (sizeProp d) (Num (SAPM.size sp))
            (setPosition (positionProp d) (SAPM.offset sp) STYLE_ITEM)).

(** ** Item sizes ([./utils]) *)

(** Modelled from the spec: the [itemSize] of the configuration (spec 6),
    "fixed-number | per-index-function | undefined", whose type is
    declared in the missing module.  A function value carries the
    reference that [!==] compares. *)
Inductive ItemSize :=
| SizeUndefined
| SizeFixed (n : Z)
| SizePerIndex (ref : positive) (f : Z -> option Z).

(** [a !== b] on item sizes and on optional numbers. *)
Definition itemSize_neq (a b : ItemSize) : bool :=
  match a, b with
  | SizeUndefined, SizeUndefined => false
  | SizeFixed x, SizeFixed y => negb (x =? y)
  | SizePerIndex r _, SizePerIndex r' _ => negb (r =? r')%positive
  | _, _ => true
  end.

Definition number_neq (a b : option Z) : bool :=
  match a, b with
  | None, None => false
  | Some x, Some y => negb (x =? y)
  | _, _ => true
  end.

(** Modelled from the spec: [getItemSizeGetter] of [./utils], a size
    getter "mapping an index to a known size (if measured)". *)
Definition getItemSizeGetter (itemSize : ItemSize) : Z -> option Z :=
  match itemSize with
  | SizeUndefined => λ _, None
  | SizeFixed n => λ _, Some n
  | SizePerIndex _ f => f
  end.

(** Modelled from the spec: [getEstimatedGetter] of [./utils], "an
    estimated uniform size": the fixed size when there is one, else the
    configured estimate ("required when itemSize is not fully fixed"; 0
    stands for the missing one). *)
Definition getEstimatedGetter (estimatedSize : option Z) (itemSize : ItemSize) : Z -> Z :=
  match itemSize with
  | SizeFixed n => λ _, n
  | _ => λ _, default 0 estimatedSize
  end.

(** ** A state monad with exceptions *)

Definition M (S A : Type) : Type := S -> result A * S.

Definition ret {S A} (a : A) : M S A := λ s, (Ok a, s).

Definition throw {S A} (e : Error) : M S A := λ s, (Throw e, s).

Definition bind {S A B} (m : M S A) (k : A -> M S B) : M S B :=
  λ s, match m s with
       | (Ok a, s') => k a s'
       | (Throw e, s') => (Throw e, s')
       end.

Definition get {S} : M S S := λ s, (Ok s, s).

Definition modify {S} (f : S -> S) : M S unit := λ s, (Ok tt, f s).

Global Instance M_ret {S} : MRet (M S) := λ A, ret.
Global Instance M_bind {S} : MBind (M S) := λ A B k m, bind m k.

(** A loop over [l] that threads the array being built. *)
Fixpoint foldM {S A B} (f : B -> A -> M S B) (l : list A) (acc : B) : M S B :=
  match l with
  | [] => ret acc
  | x :: l' => bind (f acc x) (λ acc', foldM f l' acc')
  end.

(** [a[i]] on a JavaScript array: [undefined] outside the array. *)
Definition arrayGet {A} (a : list A) (i : Z) : option A :=
  if i <? 0 then None else a !! Z.to_nat i.

(** ** The data manager ([./VirutalListDataManager]) *)

(** Modelled from the spec: [VirutalListItemData] of the missing module,
    one entry "{index, style, item}" of the render list (spec 6), as
    [update] builds it. *)
Record VirutalListItemData (T : Type) := {
  index : Z;
  style : NormalizedStyle;
  item : option T
}.
Arguments index {T} _.
Arguments style {T} _.
Arguments item {T} _.

(** Modelled from the spec: [VirutalListDataManagerState] of the missing
    module, the configuration the orchestrator reads (spec 4.2 and 6):
    item count, item size, estimated size, overscan, sticky indices and
    the current data array.  [stickyIndices] is [None] when it is not an
    array. *)
Record VirutalListDataManagerState (T : Type) := {
  itemCount : Z;
  itemSize : ItemSize;
  estimatedSize : option Z;
  overscan : Z;
  stickyIndices : option (list Z);
  data : list T
}.
Arguments itemCount {T} _.
Arguments itemSize {T} _.
Arguments estimatedSize {T} _.
Arguments overscan {T} _.
Arguments stickyIndices {T} _.
Arguments data {T} _.

(** Modelled from the spec: the [VirutalListDataManager] object of the
    missing module, as far as the component touches it: its state,
    whether the two callbacks of [componentDidMount] are registered, the
    update scheduler of spec 4.3 ([__pending]: a deferred callback is
    armed), the terminal [Destroyed] state of spec 4.4, and the render
    lists that the deferred callback has delivered, oldest first. *)
Record VirutalListDataManager (T : Type) := {
  __state : VirutalListDataManagerState T;
  __updater : bool;
  __onStateChange : bool;
  __pending : bool;
  __destroyed : bool;
  __delivered : list (result (list (VirutalListItemData T)))
}.
Arguments __state {T} _.
Arguments __updater {T} _.
Arguments __onStateChange {T} _.
Arguments __pending {T} _.
Arguments __destroyed {T} _.
Arguments __delivered {T} _.

(** Modelled from the spec: [__getState], [__setUpdater] and
    [__setOnStateChange] of the missing module: reading the state, and
    registering the two callbacks of the component. *)
Definition __getState {T} (dm : VirutalListDataManager T) : VirutalListDataManagerState T :=
  __state dm.

(** Modelled from the spec: [__setUpdater] of the missing module; the
    updater is the component's [update]. *)
Definition __setUpdater {T} (dm : VirutalListDataManager T) : VirutalListDataManager T :=
  {| __state := __state dm; __updater := true; __onStateChange := __onStateChange dm;
     __pending := __pending dm; __destroyed := __destroyed dm;
     __delivered := __delivered dm |}.

(** Modelled from the spec: [__setOnStateChange] of the missing module;
    the handler is the component's [onStateChange]. *)
Definition __setOnStateChange {T} (dm : VirutalListDataManager T) : VirutalListDataManager T :=
  {| __state := __state dm; __updater := __updater dm; __onStateChange := true;
     __pending := __pending dm; __destroyed := __destroyed dm;
     __delivered := __delivered dm |}.

(** Modelled from the spec: arming and disarming the deferred callback
    of the missing module's scheduler. *)
Definition setPending {T} (b : bool) (dm : VirutalListDataManager T) : VirutalListDataManager T :=
  {| __state := __state dm; __updater := __updater dm;
     __onStateChange := __onStateChange dm;
     __pending := b; __destroyed := __destroyed dm;
     __delivered := __delivered dm |}.

(** Modelled from the spec: the "notify" half of the missing module's
    "recompute-and-notify step": the outcome of a recompute is handed on. *)
Definition deliver {T} (r : result (list (VirutalListItemData T)))
  (dm : VirutalListDataManager T) : VirutalListDataManager T :=
  {| __state := __state dm; __updater := __updater dm;
     __onStateChange := __onStateChange dm;
     __pending := __pending dm; __destroyed := __destroyed dm;
     __delivered := __delivered dm ++ [r] |}.

(** Modelled from the spec: [__nextTickUpdate] of the missing module, the
    [scheduleRecompute] of spec 4.3: "if a recompute is already pending,
    this is a no-op (at most one pending recompute at a time); otherwise
    arms a deferred callback"; once destroyed, "further mutating calls are
    no-ops". *)
Definition __nextTickUpdate {T} (dm : VirutalListDataManager T) : VirutalListDataManager T :=
  if __destroyed dm then dm
  else if __pending dm then dm
  else setPending true dm.

(** Modelled from the spec: [destroy] of the missing module, which
    "cancels any pending scheduled recompute" ([cancel] of spec 4.3: "if a
    recompute is pending, prevents it from firing") and enters the
    terminal state; "Idempotent". *)
Definition destroy {T} (dm : VirutalListDataManager T) : VirutalListDataManager T :=
  {| __state := __state dm; __updater := __updater dm;
     __onStateChange := __onStateChange dm;
     __pending := false; __destroyed := true;
     __delivered := __delivered dm |}.

(** ** The component *)

Module VirtualListProps.
(** The props the component reads; [props.dataManager] is the shared
    object held in the [dataManager] field of the component below.  The
    extents are the numeric case of [number | string]. *)
Record t := {
  width : Z;
  height : Z;
  scrollDirection : DIRECTION
}.
End VirtualListProps.

(** The instance fields of [VirtualList], the data manager it shares with
    its owner, and the two things of the host it acts on: the timeouts
    that are armed and the re-renders [forceUpdate] has asked for. *)
Record VirtualList (T : Type) := {
  props : VirtualListProps.t;
  dataManager : VirutalListDataManager T;
  delayUpdateTimer : option Z;
  styleCache : gmap Z NormalizedStyle;
  sizeAndPositionManager : option SAPM.t;
  needUpdate : bool;
  offset : Z;
  timers : gset Z;
  forceUpdates : nat
}.
Arguments props {T} _.
Arguments dataManager {T} _.
Arguments delayUpdateTimer {T} _.
Arguments styleCache {T} _.
Arguments sizeAndPositionManager {T} _.
Arguments needUpdate {T} _.
Arguments offset {T} _.
Arguments timers {T} _.
Arguments forceUpdates {T} _.

(** The field initialisers of the class (lines 75-79). *)
Definition construct {T} (p : VirtualListProps.t) (dm : VirutalListDataManager T)
  : VirtualList T :=
  {| props := p; dataManager := dm; delayUpdateTimer := None; styleCache := ∅;
     sizeAndPositionManager := None; needUpdate := true; offset := 0;
     timers := ∅; forceUpdates := 0 |}.

Definition set_dataManager {T} (dm : VirutalListDataManager T) (s : VirtualList T)
  : VirtualList T :=
  {| props := props s; dataManager := dm; delayUpdateTimer := delayUpdateTimer s;
     styleCache := styleCache s; sizeAndPositionManager := sizeAndPositionManager s;
     needUpdate := needUpdate s; offset := offset s; timers := timers s;
     forceUpdates := forceUpdates s |}.

Definition set_styleCache {T} (c : gmap Z NormalizedStyle) (s : VirtualList T)
  : VirtualList T :=
  {| props := props s; dataManager := dataManager s;
     delayUpdateTimer := delayUpdateTimer s;
     styleCache := c; sizeAndPositionManager := sizeAndPositionManager s;
     needUpdate := needUpdate s; offset := offset s; timers := timers s;
     forceUpdates := forceUpdates s |}.

Definition set_sizeAndPositionManager {T} (m : option SAPM.t) (s : VirtualList T)
  : VirtualList T :=
  {| props := props s; dataManager := dataManager s;
     delayUpdateTimer := delayUpdateTimer s;
     styleCache := styleCache s; sizeAndPositionManager := m;
     needUpdate := needUpdate s; offset := offset s; timers := timers s;
     forceUpdates := forceUpdates s |}.

Definition set_needUpdate {T} (b : bool) (s : VirtualList T) : VirtualList T :=
  {| props := props s; dataManager := dataManager s;
     delayUpdateTimer := delayUpdateTimer s;
     styleCache := styleCache s; sizeAndPositionManager := sizeAndPositionManager s;
     needUpdate := b; offset := offset s; timers := timers s;
     forceUpdates := forceUpdates s |}.

Definition set_offset {T} (o : Z) (s : VirtualList T) : VirtualList T :=
  {| props := props s; dataManager := dataManager s;
     delayUpdateTimer := delayUpdateTimer s;
     styleCache := styleCache s; sizeAndPositionManager := sizeAndPositionManager s;
     needUpdate := needUpdate s; offset := o; timers := timers s;
     forceUpdates := forceUpdates s |}.

(** [clearTimeout(t)] and [this.forceUpdate()]. *)
Definition clearTimeout {T} (t : Z) (s : VirtualList T) : VirtualList T :=
  {| props := props s; dataManager := dataManager s;
     delayUpdateTimer := delayUpdateTimer s;
     styleCache := styleCache s; sizeAndPositionManager := sizeAndPositionManager s;
     needUpdate := needUpdate s; offset := offset s; timers := timers s ∖ {[t]};
     forceUpdates := forceUpdates s |}.

Definition forceUpdate {T} (s : VirtualList T) : VirtualList T :=
  {| props := props s; dataManager := dataManager s;
     delayUpdateTimer := delayUpdateTimer s;
     styleCache := styleCache s; sizeAndPositionManager := sizeAndPositionManager s;
     needUpdate := needUpdate s; offset := offset s; timers := timers s;
     forceUpdates := S (forceUpdates s) |}.

(** A method call on [this.sizeAndPositionManager]: a [TypeError] while
    the field is still undefined, else the call and the manager it leaves. *)
Definition callManager {T A} (f : SAPM.t -> result A * SAPM.t) : M (VirtualList T) A :=
  λ s, match sizeAndPositionManager s with
       | None => (Throw TypeError, s)
       | Some m => let '(r, m') := f m in (r, set_sizeAndPositionManager (Some m') s)
       end.

Definition componentDidMount {T} (s : VirtualList T) : VirtualList T :=
  let st := __getState (dataManager s) in
  let estimatedSizeGetter := getEstimatedGetter (estimatedSize st) (itemSize st) in
  let s1 :=
    set_sizeAndPositionManager
      (Some (SAPM.create (itemCount st) (getItemSizeGetter (itemSize st))
                         estimatedSizeGetter)) s in
  let s2 := set_dataManager (__setUpdater (dataManager s1)) s1 in
  set_dataManager (__setOnStateChange (dataManager s2)) s2.

Definition updateVirutalListDataRange {T} (s : VirtualList T) : VirtualList T :=
  if negb (needUpdate s) then s
  else set_needUpdate false (set_dataManager (__nextTickUpdate (dataManager s)) s).

Definition componentDidUpdate {T} (s : VirtualList T) : VirtualList T :=
  updateVirutalListDataRange s.

Definition componentWillUnmount {T} (s : VirtualList T) : VirtualList T :=
  let s1 := match delayUpdateTimer s with
            | Some t => clearTimeout t s
            | None => s
            end in
  set_dataManager (destroy (dataManager s1)) s1.

Definition setScrollOffset {T} (scrollOffset : Z) (s : VirtualList T) : VirtualList T :=
  if negb (offset s =? scrollOffset)
  then updateVirutalListDataRange (set_needUpdate true (set_offset scrollOffset s))
  else s.

Definition getContainerSize {T} (s : VirtualList T) : Z :=
  match sizeProp (VirtualListProps.scrollDirection (props s)) with
  | prop_width => VirtualListProps.width (props s)
  | prop_height => VirtualListProps.height (props s)
  end.

(** [recomputeSizes(index = 0)]. *)
Definition recomputeSizes {T} (index : option Z) : M (VirtualList T) unit :=
  (modify (set_styleCache ∅);;
   callManager (λ m, (Ok tt, SAPM.resetItem (default 0 index) m))).

(** A truthy optional boolean. *)
Definition truthy (b : option bool) : bool := default false b.

Definition getStyle {T} (index : Z) (isSticky : option bool)
  : M (VirtualList T) NormalizedStyle :=
  (s ← get;
   match styleCache s !! index with
   | Some style => ret style
   | None =>
       sizeAndPosition ← callManager (SAPM.getSizeAndPositionForIndex index);
       let style :=
         normalizeStyle
           (itemStyle (VirtualListProps.scrollDirection (props s))
                      (truthy isSticky) sizeAndPosition) in
       modify (λ s', set_styleCache (<[index := style]> (styleCache s')) s');;
       ret style
   end).

Definition onStateChange {T} (prevState : VirutalListDataManagerState T)
  : M (VirtualList T) unit :=
  (s ← get;
   let st := __getState (dataManager s) in
   (if negb (itemCount prevState =? itemCount st)
    then callManager (λ m, (Ok tt, SAPM.updateConfig
           {| SAPM.cfg_itemCount := Some (itemCount st);
              SAPM.cfg_itemSizeGetter := None;
              SAPM.cfg_estimatedSizeGetter := None |} m))
    else ret tt);;
   (if itemSize_neq (itemSize prevState) (itemSize st)
       || number_neq (estimatedSize prevState) (estimatedSize st)
    then callManager (λ m, (Ok tt, SAPM.updateConfig
           {| SAPM.cfg_itemCount := None;
              SAPM.cfg_itemSizeGetter := Some (getItemSizeGetter (itemSize st));
              SAPM.cfg_estimatedSizeGetter :=
                Some (getEstimatedGetter (estimatedSize st) (itemSize st)) |} m))
    else ret tt);;
   recomputeSizes None;;
   modify forceUpdate).

(** [stickyIndices.includes(i)] behind [Array.isArray(stickyIndices)]. *)
Definition isStickyIndex (stickyIndices : option (list Z)) (i : Z) : bool :=
  match stickyIndices with
  | Some l => bool_decide (i ∈ l)
  | None => false
  end.

(** One [items.push({index, style, item})]. *)
Definition pushItem {T} (data : list T) (isSticky : option bool)
  (items : list (VirutalListItemData T)) (i : Z)
  : M (VirtualList T) (list (VirutalListItemData T)) :=
  (style ← getStyle i isSticky;
   ret (items ++ [{| index := i; style := style; item := arrayGet data i |}])).

Definition update {T} (data : list T) : M (VirtualList T) (list (VirutalListItemData T)) :=
  (s ← get;
   let st := __getState (dataManager s) in
   range ← callManager (λ m,
              let '(r, m') := SAPM.getVisibleRange (getContainerSize s) (offset s)
                                                   (overscan st) m in
              (Ok r, m'));
   match SAPM.start range, SAPM.end_ range with
   | Some start, Some end_ =>
       items ← match stickyIndices st with
                | Some l => foldM (pushItem data (Some true)) l []
                | None => ret []
                end;
       foldM (λ items i,
                if isStickyIndex (stickyIndices st) i then ret items
                else pushItem data None items i)
             (seqZ start (end_ - start + 1)) items
   | _, _ => ret []
   end).

(** The two styles [render] hands to the views: the outer one is the
    normalized [{width, height}], the inner one is [STYLE_INNER] with the
    total size under the scroll-axis size property. *)
Record Rendered := {
  outterStyle : NormalizedValue * NormalizedValue;
  innerStyle : SizeProp * NormalizedValue
}.

Definition render {T} (s : VirtualList T) : Rendered :=
  let totalSize := match sizeAndPositionManager s with
                   | Some m => SAPM.getTotalSize m
                   | None => 0
                   end in
  {| outterStyle := (normalizeValue (VirtualListProps.width (props s)),
                     normalizeValue (VirtualListProps.height (props s)));
     innerStyle := (sizeProp (VirtualListProps.scrollDirection (props s)),
                    normalizeValue totalSize) |}.

(** Modelled from the spec: the deferred callback that [__nextTickUpdate]
    arms in the missing module.  "When it fires, [it] invokes the
    orchestrator's recompute-and-notify step exactly once, using the state
    as of the fire time": the registered updater ([update]) runs on the
    data of that moment and its outcome is delivered.  Nothing is armed
    after [destroy], so nothing runs then. *)
Definition deferredCallback {T} (s : VirtualList T) : VirtualList T :=
  if __pending (dataManager s) && __updater (dataManager s)
  then
    let s1 := set_dataManager (setPending false (dataManager s)) s in
    let '(r, s2) := update (data (__getState (dataManager s1))) s1 in
    set_dataManager (deliver r (dataManager s2)) s2
  else s.

(** ** Vocabulary of the properties *)

(** A run of [getStyle] calls whose results are dropped. *)
Definition getStyles {T} (calls : list (Z * option bool)) (s : VirtualList T)
  : VirtualList T :=
  foldl (λ s c, (getStyle c.1 c.2 s).2) s calls.

(** The two kinds of style the cache can hold for a scroll direction. *)
Definition stickyStyle (d : DIRECTION) (st : NormalizedStyle) : Prop :=
  position (raw st) = sticky ∧ scrollAxisOffset d (raw st) = 0
  ∧ zIndex (raw st) = Some DEFAULT_ZINDEX.

Definition normalStyle (st : NormalizedStyle) : Prop :=
  position (raw st) = absolute ∧ zIndex (raw st) = Some zIndex_auto.

Definition styleFor (d : DIRECTION) (L : list Z) (i : Z) (st : NormalizedStyle) : Prop :=
  if bool_decide (i ∈ L) then stickyStyle d st else normalStyle st.

(** Every cached style is sticky exactly for the indices of [L]. *)
Definition cacheAgrees (d : DIRECTION) (L : list Z) (c : gmap Z NormalizedStyle) : Prop :=
  ∀ i st, c !! i = Some st → styleFor d L i st.

(** The loop invariant of [update]: the direction, a manager over [n]
    items, and a cache that agrees with the sticky indices. *)
Definition updateInv {T} (d : DIRECTION) (n : Z) (L : list Z)
  (dm : VirutalListDataManager T) (o : Z) (s : VirtualList T) : Prop :=
  VirtualListProps.scrollDirection (props s) = d
  ∧ (∃ m, sizeAndPositionManager s = Some m ∧ SAPM.itemCount m = n)
  ∧ cacheAgrees d L (styleCache s)
  ∧ dataManager s = dm ∧ offset s = o.

(** What [update] pairs with an index: [data[index]] and a style of the
    kind the sticky indices ask for. *)
Definition goodItem {T} (data : list T) (d : DIRECTION) (L : list Z)
  (it : VirutalListItemData T) : Prop :=
  item it = arrayGet data (index it) ∧ styleFor d L (index it) (style it).

(** A run of synchronous [setScrollOffset] calls, and the runs in which
    every call brings an offset other than the current one. *)
Definition setScrollOffsets {T} (os : list Z) (s : VirtualList T) : VirtualList T :=
  foldl (λ s o, setScrollOffset o s) s os.

Fixpoint allChange (cur : Z) (os : list Z) : Prop :=
  match os with
  | [] => True
  | o :: os' => o ≠ cur ∧ allChange o os'
  end.

(** The number of recomputes the deferred callback has run so far. *)
Definition executions {T} (s : VirtualList T) : nat :=
  length (__delivered (dataManager s)).

(** The fields a render pass never writes. *)
Definition sameOutside {T} (s s' : VirtualList T) : Prop :=
  props s' = props s ∧ dataManager s' = dataManager s
  ∧ offset s' = offset s ∧ needUpdate s' = needUpdate s
  ∧ delayUpdateTimer s' = delayUpdateTimer s ∧ timers s' = timers s
  ∧ forceUpdates s' = forceUpdates s.

(** The two comparisons of [onStateChange] and the two partial
    configurations it passes to [updateConfig]. *)
Definition countChanged {T} (prev st : VirutalListDataManagerState T) : bool :=
  negb (itemCount prev =? itemCount st).

Definition sizeChanged {T} (prev st : VirutalListDataManagerState T) : bool :=
  itemSize_neq (itemSize prev) (itemSize st)
  || number_neq (estimatedSize prev) (estimatedSize st).

Definition countConfig {T} (st : VirutalListDataManagerState T) : SAPM.Config :=
  {| SAPM.cfg_itemCount := Some (itemCount st);
     SAPM.cfg_itemSizeGetter := None;
     SAPM.cfg_estimatedSizeGetter := None |}.

Definition sizeConfig {T} (st : VirutalListDataManagerState T) : SAPM.Config :=
  {| SAPM.cfg_itemCount := None;
     SAPM.cfg_itemSizeGetter := Some (getItemSizeGetter (itemSize st));
     SAPM.cfg_estimatedSizeGetter :=
       Some (getEstimatedGetter (estimatedSize st) (itemSize st)) |}.

(** A mounted list of five 20-unit items with item 2 sticky, and the
    same list without items, used to instantiate the statements below. *)
Definition exampleState : VirutalListDataManagerState string :=
  {| itemCount := 5; itemSize := SizeFixed 20; estimatedSize := None; overscan := 0;
     stickyIndices := Some [2]; data := ["a"; "b"; "c"; "d"; "e"]%string |}.

Definition emptyState : VirutalListDataManagerState string :=
  {| itemCount := 0; itemSize := SizeFixed 20; estimatedSize := None; overscan := 0;
     stickyIndices := Some [2]; data := [] |}.

Definition mountedList (st : VirutalListDataManagerState string) (d : DIRECTION)
  (w h : Z) : VirtualList string :=
  componentDidMount
    (construct {| VirtualListProps.width := w; VirtualListProps.height := h;
                  VirtualListProps.scrollDirection := d |}
               {| __state := st; __updater := false; __onStateChange := false;
                  __pending := false; __destroyed := false; __delivered := [] |}).

Definition exampleList (d : DIRECTION) (w h : Z) : VirtualList string :=
  mountedList exampleState d w h.

Definition exampleManager : SAPM.t :=
  SAPM.create 5 (getItemSizeGetter (SizeFixed 20)) (getEstimatedGetter None (SizeFixed 20)).

(** The manager of a mounted component counts [n] items. *)
Definition managerCounts {T} (n : Z) (s : VirtualList T) : Prop :=
  ∃ m, sizeAndPositionManager s = Some m ∧ SAPM.itemCount m = n.

(** An entry of a render list against the component [update] leaves: the
    item is [data[index]] and the style is the one cached under the
    index. *)
Definition renderedFrom {T} (data : list T) (s' : VirtualList T)
  (it : VirutalListItemData T) : Prop :=
  item it = arrayGet data (index it) ∧ styleCache s' !! index it = Some (style it).

(** The body of the two loops of [update]: skip the indices [P] holds
    for, push an item for the others. *)
Definition pushUnless {T} (P : Z → bool) (data : list T) (isSticky : option bool)
  (items : list (VirutalListItemData T)) (i : Z)
  : M (VirtualList T) (list (VirutalListItemData T)) :=
  if P i then ret items else pushItem data isSticky items i.

(** The render list of an outcome of [update]; none for a throw. *)
Definition renderedItems {T} (r : result (list (VirutalListItemData T)))
  : list (VirutalListItemData T) :=
  match r with
  | Ok items => items
  | Throw _ => []
  end.

(** Scrolling and rendering in turns: for each offset a
    [setScrollOffset] and then a render pass; the outcomes of the passes
    in order, and the component they leave. *)
Fixpoint scrollAndRender {T} (data : list T) (os : list Z) (s : VirtualList T)
  : list (result (list (VirutalListItemData T))) * VirtualList T :=
  match os with
  | [] => ([], s)
  | o :: os' =>
      let '(r, s1) := update data (setScrollOffset o s) in
      let '(rs, s2) := scrollAndRender data os' s1 in
      (r :: rs, s2)
  end.

(** What stays true between render passes: the direction, a manager over
    [n] items, a cache that agrees with the sticky indices [L] of the
    state, and a container of positive extent. *)
Definition renderInv {T} (d : DIRECTION) (n : Z) (L : list Z) (s : VirtualList T)
  : Prop :=
  VirtualListProps.scrollDirection (props s) = d
  ∧ managerCounts n s
  ∧ cacheAgrees d L (styleCache s)
  ∧ default [] (stickyIndices (__getState (dataManager s))) = L
  ∧ 0 < getContainerSize s.

Ltac unfold_M :=
  unfold mbind, M_bind, bind, mret, M_ret, ret, get, modify, throw, callManager.

(** ** Properties of the size/position manager *)

Section manager_facts.
Import SizeAndPositionManager.

Lemma measure_itemCount idx prev m :
  itemCount (measure idx prev m).2 = itemCount m.
Proof. unfold measure. by destruct (itemSizeGetter m idx). Qed.

Lemma fill_itemCount n : ∀ idx prev m,
  itemCount (fill n idx prev m).2 = itemCount m.
Proof.
  induction n as [|n IH]; intros idx prev m; simpl; [done|].
  destruct (measure idx prev m) as [r m'] eqn:E.
  rewrite IH. by rewrite <- (measure_itemCount idx prev m), E.
Qed.

Lemma sizeAndPositionAt_itemCount i m :
  itemCount (sizeAndPositionAt i m).2 = itemCount m.
Proof.
  unfold sizeAndPositionAt. destruct (i <=? lastMeasuredIndex m); [done|].
  apply fill_itemCount.
Qed.

Lemma getSizeAndPositionForIndex_itemCount i m :
  itemCount (getSizeAndPositionForIndex i m).2 = itemCount m.
Proof.
  unfold getSizeAndPositionForIndex.
  destruct ((i <? 0) || (itemCount m <=? i)); [done|].
  destruct (sizeAndPositionAt i m) as [r m'] eqn:E. simpl.
  by rewrite <- (sizeAndPositionAt_itemCount i m), E.
Qed.

Lemma getSizeAndPositionForIndex_ok i m :
  0 ≤ i < itemCount m →
  ∃ sp m', getSizeAndPositionForIndex i m = (Ok sp, m')
           ∧ sizeAndPositionAt i m = (sp, m')
           ∧ itemCount m' = itemCount m.
Proof.
  intros Hi. unfold getSizeAndPositionForIndex.
  replace (i <? 0) with false by (symmetry; apply Z.ltb_ge; lia).
  replace (itemCount m <=? i) with false by (symmetry; apply Z.leb_gt; lia).
  simpl. destruct (sizeAndPositionAt i m) as [r m'] eqn:E.
  exists r, m'. repeat split.
  by rewrite <- (sizeAndPositionAt_itemCount i m), E.
Qed.

Lemma getSizeAndPositionForIndex_out i m :
  i < 0 ∨ itemCount m ≤ i →
  getSizeAndPositionForIndex i m = (Throw (IndexOutOfRange i), m).
Proof.
  intros Hi. unfold getSizeAndPositionForIndex.
  destruct (i <? 0) eqn:E1; [done|].
  destruct (itemCount m <=? i) eqn:E2; [done|].
  apply Z.ltb_ge in E1. apply Z.leb_gt in E2. lia.
Qed.

Lemma findStart_itemCount n : ∀ idx o m,
  itemCount (findStart n idx o m).2 = itemCount m.
Proof.
  induction n as [|n IH]; intros idx o m; simpl; [done|].
  destruct (sizeAndPositionAt idx m) as [r m'] eqn:E.
  assert (itemCount m' = itemCount m) as <-
    by (by rewrite <- (sizeAndPositionAt_itemCount idx m), E).
  destruct (o <? offset r + size r); [done|]. apply IH.
Qed.

Lemma findEnd_itemCount n : ∀ idx o m,
  itemCount (findEnd n idx o m).2 = itemCount m.
Proof.
  induction n as [|n IH]; intros idx o m; simpl; [done|].
  destruct (sizeAndPositionAt (idx + 1) m) as [r m'] eqn:E.
  assert (itemCount m' = itemCount m) as <-
    by (by rewrite <- (sizeAndPositionAt_itemCount (idx + 1) m), E).
  destruct (offset r <? o); [|done]. apply IH.
Qed.

Lemma clamp_bounds lo hi v : lo ≤ hi → lo ≤ clamp lo hi v ≤ hi.
Proof. unfold clamp. lia. Qed.

Lemma getVisibleRange_empty c o ov m :
  itemCount m = 0 ∨ c ≤ 0 →
  getVisibleRange c o ov m = ({| start := None; end_ := None |}, m).
Proof.
  intros H. unfold getVisibleRange.
  destruct (itemCount m =? 0) eqn:E1; [done|].
  destruct (c <=? 0) eqn:E2; [done|].
  apply Z.eqb_neq in E1. apply Z.leb_gt in E2. lia.
Qed.

Lemma getVisibleRange_defined c o ov m :
  0 < itemCount m → 0 < c →
  ∃ a b m', getVisibleRange c o ov m = ({| start := Some a; end_ := Some b |}, m')
            ∧ 0 ≤ a < itemCount m ∧ 0 ≤ b < itemCount m
            ∧ itemCount m' = itemCount m.
Proof.
  intros Hn Hc. unfold getVisibleRange.
  replace (itemCount m =? 0) with false by (symmetry; apply Z.eqb_neq; lia).
  replace (c <=? 0) with false by (symmetry; apply Z.leb_gt; lia).
  simpl.
  destruct (findStart (Z.to_nat (itemCount m)) 0 o m) as [s m1] eqn:E1.
  destruct (findEnd (Z.to_nat (itemCount m - 1 - s)) s (o + c) m1) as [e m2] eqn:E2.
  eexists _, _, _. split; [reflexivity|].
  pose proof (clamp_bounds 0 (itemCount m - 1) (s - ov)).
  pose proof (clamp_bounds 0 (itemCount m - 1) (e + ov)).
  repeat split; try lia.
  transitivity (itemCount m1).
  - by rewrite <- (findEnd_itemCount (Z.to_nat (itemCount m - 1 - s)) s (o + c) m1), E2.
  - by rewrite <- (findStart_itemCount (Z.to_nat (itemCount m)) 0 o m), E1.
Qed.

Lemma getTotalSize_empty m : itemCount m = 0 → getTotalSize m = 0.
Proof. intros H. unfold getTotalSize. by rewrite H. Qed.

Lemma resetItem_lastMeasuredIndex k m : lastMeasuredIndex (resetItem k m) ≤ k - 1.
Proof. simpl. lia. Qed.

Lemma resetItem_discards k m i :
  k ≤ i → itemSizeAndPositionData (resetItem k m) !! i = None.
Proof.
  intros Hi. simpl. apply map_lookup_filter_None. right. intros x _. simpl. lia.
Qed.

Lemma resetItem_keeps k m i :
  i < k → itemSizeAndPositionData (resetItem k m) !! i = itemSizeAndPositionData m !! i.
Proof.
  intros Hi. simpl.
  destruct (itemSizeAndPositionData m !! i) as [x|] eqn:E.
  - apply map_lookup_filter_Some. split; [done|]. simpl. lia.
  - apply map_lookup_filter_None. by left.
Qed.

End manager_facts.

(** ** Properties of the component *)

Section component_facts.
Context {T : Type}.
Implicit Types (s : VirtualList T) (i : Z) (b : option bool).

Lemma set_sizeAndPositionManager_same s m :
  sizeAndPositionManager s = Some m → set_sizeAndPositionManager (Some m) s = s.
Proof. destruct s; simpl; intros ->; reflexivity. Qed.

(** [getStyle] as one case analysis. *)
Lemma getStyle_eq i b s :
  getStyle i b s =
    match styleCache s !! i with
    | Some st => (Ok st, s)
    | None =>
        match sizeAndPositionManager s with
        | None => (Throw TypeError, s)
        | Some m =>
            match SAPM.getSizeAndPositionForIndex i m with
            | (Ok sp, m') =>
                let st := normalizeStyle
                            (itemStyle (VirtualListProps.scrollDirection (props s))
                                       (truthy b) sp) in
                (Ok st, set_styleCache (<[i := st]> (styleCache s))
                          (set_sizeAndPositionManager (Some m') s))
            | (Throw e, m') => (Throw e, set_sizeAndPositionManager (Some m') s)
            end
        end
    end.
Proof.
  unfold getStyle. unfold_M.
  destruct (styleCache s !! i); [done|].
  destruct (sizeAndPositionManager s) as [m|]; [|done].
  destruct (SAPM.getSizeAndPositionForIndex i m) as [[sp|e] m']; reflexivity.
Qed.

(** What a call of [getStyle] leaves alone. *)
Lemma getStyle_frame i b s : sameOutside s (getStyle i b s).2.
Proof.
  unfold sameOutside. rewrite getStyle_eq.
  destruct (styleCache s !! i); [done|].
  destruct (sizeAndPositionManager s) as [m|]; [|done].
  destruct (SAPM.getSizeAndPositionForIndex i m) as [[sp|e] m']; done.
Qed.

(** An entry of the style cache survives every later [getStyle]. *)
Lemma getStyle_keeps i b s j st :
  styleCache s !! j = Some st → styleCache (getStyle i b s).2 !! j = Some st.
Proof.
  intros Hj. rewrite getStyle_eq.
  destruct (styleCache s !! i) eqn:Hi; [done|].
  destruct (sizeAndPositionManager s) as [m|]; [|done].
  destruct (SAPM.getSizeAndPositionForIndex i m) as [[sp|e] m']; simpl; [|done].
  rewrite lookup_insert_ne; [done|]. intros ->. congruence.
Qed.

(** A successful [getStyle] leaves its result in the cache. *)
Lemma getStyle_caches i b s st s' :
  getStyle i b s = (Ok st, s') → styleCache s' !! i = Some st.
Proof.
  rewrite getStyle_eq.
  destruct (styleCache s !! i) eqn:Hi; [by intros [= <- <-]|].
  destruct (sizeAndPositionManager s) as [m|]; [|done].
  destruct (SAPM.getSizeAndPositionForIndex i m) as [[sp|e] m']; [|done].
  intros [= <- <-]. simpl. apply lookup_insert_eq.
Qed.

Lemma getStyles_keeps calls : ∀ s j st,
  styleCache s !! j = Some st → styleCache (getStyles calls s) !! j = Some st.
Proof.
  induction calls as [|c calls IH]; intros s j st H; simpl; [done|].
  apply IH. by apply getStyle_keeps.
Qed.

Lemma itemStyle_sticky d sp : stickyStyle d (normalizeStyle (itemStyle d true sp)).
Proof. by destruct d. Qed.

Lemma itemStyle_normal d sp : normalStyle (normalizeStyle (itemStyle d false sp)).
Proof. by destruct d. Qed.

Lemma cacheAgrees_empty d L : cacheAgrees d L ∅.
Proof. intros i st H. by rewrite lookup_empty in H. Qed.

Lemma getStyle_inv d n L dm o s i b :
  updateInv d n L dm o s → 0 ≤ i < n → truthy b = bool_decide (i ∈ L) →
  ∃ st s', getStyle i b s = (Ok st, s') ∧ updateInv d n L dm o s' ∧ styleFor d L i st.
Proof.
  intros (Hd & (m & Hm & Hn) & Hc & Hdm & Ho) Hi Hb.
  rewrite getStyle_eq.
  destruct (styleCache s !! i) as [st|] eqn:Hsi.
  { exists st, s. split; [done|]. split; [|by apply Hc].
    repeat split; eauto. }
  rewrite Hm.
  destruct (getSizeAndPositionForIndex_ok i m) as (sp & m' & -> & _ & Hn'); [lia|].
  eexists _, _. split; [reflexivity|].
  assert (styleFor d L i
            (normalizeStyle (itemStyle (VirtualListProps.scrollDirection (props s))
                                       (truthy b) sp))) as Hst.
  { unfold styleFor. rewrite Hd, Hb.
    destruct (bool_decide (i ∈ L)); [apply itemStyle_sticky | apply itemStyle_normal]. }
  split; [|done].
  repeat split; simpl; eauto.
  - exists m'. split; [done|lia].
  - intros j st. destruct (decide (i = j)) as [<-|Hne].
    + rewrite lookup_insert_eq. by intros [= <-].
    + rewrite lookup_insert_ne by done. apply Hc.
Qed.

End component_facts.

(** ** The render list *)

Section render_list.
Context {T : Type}.
Implicit Types (s : VirtualList T) (i : Z) (data : list T).

Lemma foldM_cons {S A B} (f : B → A → M S B) x l acc (s : S) :
  foldM f (x :: l) acc s =
    match f acc x s with
    | (Ok acc', s') => foldM f l acc' s'
    | (Throw e, s') => (Throw e, s')
    end.
Proof. reflexivity. Qed.

Lemma isStickyIndex_default (o : option (list Z)) i :
  isStickyIndex o i = bool_decide (i ∈ default [] o).
Proof.
  destruct o; [done|]. symmetry. apply bool_decide_eq_false_2. set_solver.
Qed.

Lemma pushItem_eq data b (items : list (VirutalListItemData T)) i s :
  pushItem data b items i s =
    match getStyle i b s with
    | (Ok st, s') =>
        (Ok (items ++ [{| index := i; style := st; item := arrayGet data i |}]), s')
    | (Throw e, s') => (Throw e, s')
    end.
Proof.
  unfold pushItem. unfold_M. by destruct (getStyle i b s) as [[st|e] s'].
Qed.

(** [update] as one case analysis. *)
Lemma update_eq data s :
  update data s =
    match sizeAndPositionManager s with
    | None => (Throw TypeError, s)
    | Some m =>
        let st := __getState (dataManager s) in
        let '(range, m') := SAPM.getVisibleRange (getContainerSize s) (offset s)
                                                 (overscan st) m in
        let s1 := set_sizeAndPositionManager (Some m') s in
        match SAPM.start range, SAPM.end_ range with
        | Some a, Some e =>
            match
              match stickyIndices st with
              | Some l => foldM (pushItem data (Some true)) l [] s1
              | None => (Ok [], s1)
              end
            with
            | (Ok items, s2) =>
                foldM (λ items i,
                         if isStickyIndex (stickyIndices st) i then ret items
                         else pushItem data None items i)
                      (seqZ a (e - a + 1)) items s2
            | (Throw err, s2) => (Throw err, s2)
            end
        | _, _ => (Ok [], s1)
        end
    end.
Proof.
  unfold update. unfold_M.
  destruct (sizeAndPositionManager s) as [m|]; [|done].
  destruct (SAPM.getVisibleRange _ _ _ m) as [[[a|] [e|]] m']; simpl; try done.
  by destruct (stickyIndices (__getState (dataManager s))).
Qed.

(** The first loop: one item per sticky index, in the given order. *)
Lemma sticky_loop data d n L dm o (l : list Z) : ∀ items s,
  updateInv d n L dm o s →
  Forall (λ i, 0 ≤ i < n ∧ i ∈ L) l →
  ∃ items' s',
    foldM (pushItem data (Some true)) l items s = (Ok (items ++ items'), s')
    ∧ updateInv d n L dm o s'
    ∧ index <$> items' = l
    ∧ Forall (goodItem data d L) items'.
Proof.
  induction l as [|i l IH]; intros items s Hinv Hl.
  { exists [], s. simpl. unfold ret. by rewrite app_nil_r. }
  apply Forall_cons in Hl as [[Hi HiL] Hl].
  destruct (getStyle_inv d n L dm o s i (Some true) Hinv Hi) as (st & s1 & Hg & Hinv1 & Hst).
  { simpl. symmetry. by apply bool_decide_eq_true. }
  destruct (IH (items ++ [{| index := i; style := st; item := arrayGet data i |}])
               s1 Hinv1 Hl) as (items' & s' & Hf & Hinv' & Hidx & Hgood).
  exists ({| index := i; style := st; item := arrayGet data i |} :: items'), s'.
  split; [|split; [done|split]].
  - rewrite foldM_cons, pushItem_eq, Hg, Hf. by rewrite <- app_assoc.
  - by rewrite fmap_cons, Hidx.
  - apply Forall_cons. by split.
Qed.

(** The second loop: the indices of the range that are not sticky. *)
Lemma range_loop data d n dm o (so : option (list Z)) (l : list Z) : ∀ items s,
  updateInv d n (default [] so) dm o s →
  Forall (λ i, 0 ≤ i < n) l →
  ∃ items' s',
    foldM (λ items i,
             if isStickyIndex so i then ret items else pushItem data None items i)
          l items s = (Ok (items ++ items'), s')
    ∧ updateInv d n (default [] so) dm o s'
    ∧ index <$> items' = filter (λ i, i ∉ default [] so) l
    ∧ Forall (goodItem data d (default [] so)) items'.
Proof.
  induction l as [|i l IH]; intros items s Hinv Hl.
  { exists [], s. simpl. unfold ret. by rewrite app_nil_r. }
  apply Forall_cons in Hl as [Hi Hl].
  setoid_rewrite foldM_cons. rewrite isStickyIndex_default.
  destruct (decide (i ∈ default [] so)) as [Hin|Hout].
  - rewrite bool_decide_eq_true_2 by done. unfold ret at 1.
    destruct (IH items s Hinv Hl) as (items' & s' & Hf & Hinv' & Hidx & Hgood).
    exists items', s'. split; [done|split; [done|split; [|done]]].
    rewrite filter_cons_False; [done|]. by intros H.
  - rewrite bool_decide_eq_false_2 by done.
    destruct (getStyle_inv d n _ dm o s i None Hinv Hi) as (st & s1 & Hg & Hinv1 & Hst).
    { simpl. symmetry. by apply bool_decide_eq_false. }
    destruct (IH (items ++ [{| index := i; style := st; item := arrayGet data i |}])
                 s1 Hinv1 Hl) as (items' & s' & Hf & Hinv' & Hidx & Hgood).
    exists ({| index := i; style := st; item := arrayGet data i |} :: items'), s'.
    split; [|split; [done|split]].
    + rewrite pushItem_eq, Hg, Hf. by rewrite <- app_assoc.
    + rewrite filter_cons_True by done. by rewrite fmap_cons, Hidx.
    + apply Forall_cons. by split.
Qed.

End render_list.

Section render_list_claims.
Context {T : Type}.
Implicit Types (s : VirtualList T) (i : Z) (data : list T).

(** C1 (amended).  When the visible range is defined (the manager holds at
    least one item and the container extent is positive), every sticky
    index is an index of the list and the cached styles agree with the
    sticky indices, [update] returns a render list whose indices are the
    sticky indices first, each occurrence once and in the given order,
    followed by the indices of [start, end] in increasing order with the
    sticky ones skipped; every entry carries [data[index]], a sticky entry
    a sticky style and any other entry a normal style.  The sticky entries
    are there whether or not they lie inside [start, end], and the cache
    that [update] leaves agrees with the sticky indices again. *)
Theorem update_render_list data s (m : SAPM.t) :
  let st := __getState (dataManager s) in
  let L := default [] (stickyIndices st) in
  let d := VirtualListProps.scrollDirection (props s) in
  sizeAndPositionManager s = Some m →
  0 < SAPM.itemCount m →
  0 < getContainerSize s →
  Forall (λ i, 0 ≤ i < SAPM.itemCount m) L →
  cacheAgrees d L (styleCache s) →
  ∃ a e m' items s',
    SAPM.getVisibleRange (getContainerSize s) (offset s) (overscan st) m
      = ({| SAPM.start := Some a; SAPM.end_ := Some e |}, m')
    ∧ update data s = (Ok items, s')
    ∧ index <$> items = L ++ filter (λ i, i ∉ L) (seqZ a (e - a + 1))
    ∧ Forall (goodItem data d L) items
    ∧ cacheAgrees d L (styleCache s').
Proof.
  intros st L d Hm Hn Hc HL Hcache.
  destruct (getVisibleRange_defined (getContainerSize s) (offset s) (overscan st) m Hn Hc)
    as (a & e & m' & Hr & Ha & He & Hn').
  exists a, e, m'.
  rewrite update_eq, Hm. cbv zeta. fold st. rewrite Hr. simpl.
  set (s1 := set_sizeAndPositionManager (Some m') s).
  assert (updateInv d (SAPM.itemCount m) L (dataManager s) (offset s) s1) as Hinv.
  { repeat split; try done. exists m'. by split. }
  assert (∃ items1 s2,
            match stickyIndices st with
            | Some l => foldM (pushItem data (Some true)) l [] s1
            | None => (Ok [], s1)
            end = (Ok items1, s2)
            ∧ updateInv d (SAPM.itemCount m) L (dataManager s) (offset s) s2
            ∧ index <$> items1 = L
            ∧ Forall (goodItem data d L) items1)
    as (items1 & s2 & -> & Hinv2 & Hidx1 & Hgood1).
  { subst L. destruct (stickyIndices st) as [l|]; simpl in *.
    - destruct (sticky_loop data d _ l _ _ l [] s1 Hinv) as (its & s2 & Hf & ?).
      + apply Forall_forall. intros i Hi. split; [|done].
        by apply (proj1 (Forall_forall _ _) HL).
      + by exists its, s2.
    - by exists [], s1. }
  destruct (range_loop data d _ _ _ (stickyIndices st) (seqZ a (e - a + 1)) items1 s2 Hinv2)
    as (items2 & s3 & Hf & Hinv3 & Hidx2 & Hgood2).
  { apply Forall_forall. intros i Hi. apply elem_of_seqZ in Hi. lia. }
  exists (items1 ++ items2), s3.
  split; [done|]. split; [done|]. split; [|split].
  - by rewrite fmap_app, Hidx1, Hidx2.
  - by apply Forall_app.
  - by destruct Hinv3 as (_ & _ & Hc3 & _).
Qed.

(** C2 (amended).  For an index of the list that has no cached style, and
    for both scroll directions, [getStyle] returns the normalized style
    computed from the manager's size and position: a sticky item is
    pinned at scroll-axis position 0 with position ['sticky'] and the
    elevated zIndex, a normal item sits at its computed scroll-axis
    offset with position ['absolute'] and zIndex ['auto']; the scroll-axis
    extent is the computed size.  The cross-axis extent is ['100%'] (the
    width) when scrolling vertically and ['auto'] (the height) when
    scrolling horizontally. *)
Theorem getStyle_computed i (b : option bool) s (m : SAPM.t) :
  let d := VirtualListProps.scrollDirection (props s) in
  styleCache s !! i = None →
  sizeAndPositionManager s = Some m →
  0 ≤ i < SAPM.itemCount m →
  ∃ sp m' st s',
    SAPM.getSizeAndPositionForIndex i m = (Ok sp, m')
    ∧ getStyle i b s = (Ok st, s')
    ∧ (truthy b = true →
         position (raw st) = sticky ∧ scrollAxisOffset d (raw st) = 0
         ∧ zIndex (raw st) = Some DEFAULT_ZINDEX)
    ∧ (truthy b = false →
         position (raw st) = absolute ∧ scrollAxisOffset d (raw st) = SAPM.offset sp
         ∧ zIndex (raw st) = Some zIndex_auto)
    ∧ scrollAxisSize d (raw st) = Num (SAPM.size sp)
    ∧ crossAxisSize d (raw st)
      = match d with VERTICAL => Str "100%" | HORIZONTAL => Str "auto" end.
Proof.
  intros d Hc Hm Hi.
  destruct (getSizeAndPositionForIndex_ok i m Hi) as (sp & m' & Hsp & _ & _).
  exists sp, m'. rewrite getStyle_eq, Hc, Hm, Hsp. fold d.
  eexists _, _. split; [done|]. split; [reflexivity|].
  destruct d, (truthy b); simpl; repeat split; done.
Qed.

(** C6.  [getStyle] returns the cached entry of the index when there is
    one and leaves the component as it is; otherwise it computes the style
    from [getSizeAndPositionForIndex(index)] and stores it under the
    index.  [recomputeSizes] leaves an empty style cache, whatever the
    cache held and whatever index it is given. *)
Theorem getStyle_memoized i (b : option bool) s :
  (∀ st, styleCache s !! i = Some st → getStyle i b s = (Ok st, s))
  ∧ (∀ m sp m',
       styleCache s !! i = None →
       sizeAndPositionManager s = Some m →
       SAPM.getSizeAndPositionForIndex i m = (Ok sp, m') →
       let st := normalizeStyle
                   (itemStyle (VirtualListProps.scrollDirection (props s))
                              (truthy b) sp) in
       getStyle i b s
       = (Ok st, set_styleCache (<[i := st]> (styleCache s))
                   (set_sizeAndPositionManager (Some m') s))
       ∧ styleCache (getStyle i b s).2 !! i = Some st
       ∧ ∀ j, j ≠ i → styleCache (getStyle i b s).2 !! j = styleCache s !! j)
  ∧ (∀ k, styleCache (recomputeSizes k s).2 = ∅).
Proof.
  split; [|split].
  - intros st H. by rewrite getStyle_eq, H.
  - intros m sp m' Hc Hm Hsp st.
    rewrite getStyle_eq, Hc, Hm, Hsp. fold st. simpl.
    split; [done|]. split; [apply lookup_insert_eq|].
    intros j Hj. by rewrite lookup_insert_ne.
  - intros k. unfold recomputeSizes. unfold_M. simpl.
    by destruct (sizeAndPositionManager s).
Qed.

(** C9.  The style cache is keyed by the index alone: once [getStyle(i,
    b)] has returned a style, that style is cached under [i], and after
    any further [getStyle] calls every [getStyle(i, b')], sticky or not,
    returns that same style and changes nothing. *)
Theorem getStyle_ignores_sticky_once_cached i (b : option bool) s st s' :
  getStyle i b s = (Ok st, s') →
  styleCache s' !! i = Some st
  ∧ ∀ (calls : list (Z * option bool)) (b' : option bool),
      getStyle i b' (getStyles calls s') = (Ok st, getStyles calls s').
Proof.
  intros H. apply getStyle_caches in H. split; [done|].
  intros calls b'. rewrite getStyle_eq.
  by rewrite (getStyles_keeps calls s' i st H).
Qed.

End render_list_claims.

(** ** Frame of a render pass *)

Section frame.
Context {T : Type}.
Implicit Types (s : VirtualList T) (i : Z) (data : list T).

Lemma sameOutside_refl s : sameOutside s s.
Proof. by repeat split. Qed.

Lemma sameOutside_trans s1 s2 s3 :
  sameOutside s1 s2 → sameOutside s2 s3 → sameOutside s1 s3.
Proof.
  unfold sameOutside. intros (?&?&?&?&?&?&?) (?&?&?&?&?&?&?).
  repeat split; congruence.
Qed.

Lemma foldM_frame {A B} (f : B → A → M (VirtualList T) B) (l : list A) :
  (∀ acc x s, sameOutside s (f acc x s).2) →
  ∀ acc s, sameOutside s (foldM f l acc s).2.
Proof.
  intros Hf. induction l as [|x l IH]; intros acc s.
  { apply sameOutside_refl. }
  rewrite foldM_cons. specialize (Hf acc x s).
  destruct (f acc x s) as [[acc'|e] s']; simpl in *; [|done].
  eapply sameOutside_trans; [done|apply IH].
Qed.

Lemma pushItem_frame data b (items : list (VirutalListItemData T)) i s :
  sameOutside s (pushItem data b items i s).2.
Proof.
  rewrite pushItem_eq. pose proof (getStyle_frame i b s) as H.
  by destruct (getStyle i b s) as [[st|e] s'].
Qed.

Lemma update_frame data s : sameOutside s (update data s).2.
Proof.
  rewrite update_eq.
  destruct (sizeAndPositionManager s) as [m|]; [|apply sameOutside_refl].
  cbv zeta.
  destruct (SAPM.getVisibleRange _ _ _ m) as [[[a|] [e|]] m']; simpl;
    try by repeat split.
  set (s1 := set_sizeAndPositionManager (Some m') s).
  assert (sameOutside s s1) as H1 by (by repeat split).
  assert (sameOutside s1
            (match stickyIndices (__getState (dataManager s)) with
             | Some l => foldM (pushItem data (Some true)) l [] s1
             | None => (Ok [], s1)
             end).2) as H2.
  { destruct (stickyIndices _); [|apply sameOutside_refl].
    apply foldM_frame. intros. apply pushItem_frame. }
  destruct (match stickyIndices (__getState (dataManager s)) with
            | Some l => foldM (pushItem data (Some true)) l [] s1
            | None => (Ok [], s1)
            end) as [[items|err] s2]; simpl in H2.
  - eapply sameOutside_trans; [exact H1|].
    eapply sameOutside_trans; [exact H2|].
    apply foldM_frame. intros acc x s0.
    destruct (isStickyIndex _ x); [apply sameOutside_refl|apply pushItem_frame].
  - eapply sameOutside_trans; [exact H1|exact H2].
Qed.

(** [onStateChange] on a mounted component, as one equation. *)
Lemma onStateChange_eq (prev : VirutalListDataManagerState T) s m :
  sizeAndPositionManager s = Some m →
  let st := __getState (dataManager s) in
  let m1 := if countChanged prev st then SAPM.updateConfig (countConfig st) m else m in
  let m2 := if sizeChanged prev st then SAPM.updateConfig (sizeConfig st) m1 else m1 in
  onStateChange prev s =
    (Ok tt,
     {| props := props s; dataManager := dataManager s;
        delayUpdateTimer := delayUpdateTimer s; styleCache := ∅;
        sizeAndPositionManager := Some (SAPM.resetItem 0 m2);
        needUpdate := needUpdate s; offset := offset s; timers := timers s;
        forceUpdates := S (forceUpdates s) |}).
Proof.
  intros Hm st m1 m2. subst m1 m2 st.
  unfold onStateChange, recomputeSizes, countChanged, sizeChanged, countConfig, sizeConfig.
  unfold_M.
  destruct (negb (itemCount prev =? itemCount (__getState (dataManager s))));
    destruct (itemSize_neq (itemSize prev) (itemSize (__getState (dataManager s)))
              || number_neq (estimatedSize prev)
                   (estimatedSize (__getState (dataManager s))));
    simpl; rewrite Hm; reflexivity.
Qed.

End frame.

(** ** State changes, scrolling and scheduling *)

Section state_claims.
Context {T : Type}.
Implicit Types (s : VirtualList T) (prev : VirutalListDataManagerState T).

(** C3.  On a state change the component compares the previous state with
    the current one.  The manager it ends with is the manager it had
    after two steps, invalidated from index 0.  First step: if
    [itemCount] changed, the manager receives [updateConfig({itemCount})]
    and holds the new count afterwards; otherwise it is left as it is.
    Second step: if [itemSize] or [estimatedSize] changed, the manager
    receives [updateConfig] with the getters made from the new sizes and
    holds them afterwards, the style cache is cleared, and after the
    invalidation nothing is measured and no offset is cached any more;
    otherwise the second step leaves the manager as it is. *)
Theorem onStateChange_reconfigures prev s (m : SAPM.t) :
  sizeAndPositionManager s = Some m →
  let st := __getState (dataManager s) in
  ∃ m1 m2 s',
    onStateChange prev s = (Ok tt, s')
    ∧ sizeAndPositionManager s' = Some (SAPM.resetItem 0 m2)
    ∧ (itemCount prev ≠ itemCount st →
         m1 = SAPM.updateConfig (countConfig st) m
         ∧ SAPM.itemCount m1 = itemCount st
         ∧ SAPM.itemCount m2 = itemCount st)
    ∧ (itemCount prev = itemCount st → m1 = m)
    ∧ (itemSize_neq (itemSize prev) (itemSize st) = true
       ∨ number_neq (estimatedSize prev) (estimatedSize st) = true →
         m2 = SAPM.updateConfig (sizeConfig st) m1
         ∧ SAPM.itemSizeGetter m2 = getItemSizeGetter (itemSize st)
         ∧ SAPM.estimatedSizeGetter m2
           = getEstimatedGetter (estimatedSize st) (itemSize st)
         ∧ styleCache s' = ∅
         ∧ SAPM.lastMeasuredIndex (SAPM.resetItem 0 m2) ≤ -1
         ∧ ∀ i, 0 ≤ i →
             SAPM.itemSizeAndPositionData (SAPM.resetItem 0 m2) !! i = None)
    ∧ (itemSize_neq (itemSize prev) (itemSize st) = false →
       number_neq (estimatedSize prev) (estimatedSize st) = false →
         m2 = m1).
Proof.
  intros Hm st.
  pose proof (onStateChange_eq prev s m Hm) as Heq. cbv zeta in Heq. fold st in Heq.
  set (m1 := if countChanged prev st
             then SAPM.updateConfig (countConfig st) m else m) in *.
  set (m2 := if sizeChanged prev st
             then SAPM.updateConfig (sizeConfig st) m1 else m1) in *.
  exists m1, m2. eexists. split; [exact Heq|].
  split; [reflexivity|]. split; [|split; [|split]].
  - intros Hne. subst m1 m2. unfold countChanged.
    rewrite (proj2 (Z.eqb_neq _ _) Hne). simpl. split; [done|]. split; [done|].
    by destruct (sizeChanged prev st).
  - intros He. subst m1. unfold countChanged.
    by rewrite (proj2 (Z.eqb_eq _ _) He).
  - intros Hs. assert (sizeChanged prev st = true) as Hsc.
    { unfold sizeChanged. apply orb_true_iff. exact Hs. }
    subst m2. rewrite Hsc. simpl. repeat split; try done; try lia.
    intros i Hi. by apply resetItem_discards.
  - intros H1 H2. subst m2. unfold sizeChanged. by rewrite H1, H2.
Qed.

(** C10.  Every state-change notification on a mounted component ends
    with an empty style cache and a manager invalidated from index 0,
    also when neither [itemCount] nor [itemSize] nor [estimatedSize]
    changed; in that case the manager is the old one, invalidated. *)
Theorem onStateChange_always_recomputes prev s (m : SAPM.t) :
  sizeAndPositionManager s = Some m →
  let st := __getState (dataManager s) in
  ∃ m2 s',
    onStateChange prev s = (Ok tt, s')
    ∧ styleCache s' = ∅
    ∧ sizeAndPositionManager s' = Some (SAPM.resetItem 0 m2)
    ∧ SAPM.lastMeasuredIndex (SAPM.resetItem 0 m2) ≤ -1
    ∧ (∀ i, 0 ≤ i → SAPM.itemSizeAndPositionData (SAPM.resetItem 0 m2) !! i = None)
    ∧ forceUpdates s' = S (forceUpdates s)
    ∧ (countChanged prev st = false → sizeChanged prev st = false → m2 = m).
Proof.
  intros Hm st.
  pose proof (onStateChange_eq prev s m Hm) as Heq. cbv zeta in Heq. fold st in Heq.
  eexists _, _. split; [exact Heq|]. simpl.
  repeat split; try done; try lia.
  - intros i Hi. by apply resetItem_discards.
  - by intros -> ->.
Qed.

(** C4 (amended).  When the manager holds no item or the container extent
    is not positive, [getVisibleRange] returns the empty range for every
    scroll offset and overscan and leaves the manager as it is, and
    [update] returns an empty render list.  When the manager holds no
    item, [getTotalSize()] is 0 for every container size, and [render]
    gives the inner view the extent 0. *)
Theorem empty_range_renders_nothing (data : list T) s (m : SAPM.t) :
  sizeAndPositionManager s = Some m →
  (SAPM.itemCount m = 0 ∨ getContainerSize s ≤ 0 →
     (∀ o ov, SAPM.getVisibleRange (getContainerSize s) o ov m
              = ({| SAPM.start := None; SAPM.end_ := None |}, m))
     ∧ update data s = (Ok [], s))
  ∧ (SAPM.itemCount m = 0 →
       (∀ c o ov, SAPM.getVisibleRange c o ov m
                  = ({| SAPM.start := None; SAPM.end_ := None |}, m))
       ∧ SAPM.getTotalSize m = 0
       ∧ (render s).(innerStyle).2 = normalizeValue 0).
Proof.
  intros Hm. split.
  - intros H. split.
    + intros o ov. by apply getVisibleRange_empty.
    + rewrite update_eq, Hm. cbv zeta.
      rewrite (getVisibleRange_empty _ _ _ m H). simpl.
      by rewrite set_sizeAndPositionManager_same.
  - intros H. split; [|split].
    + intros c o ov. apply getVisibleRange_empty. by left.
    + by apply getTotalSize_empty.
    + unfold render. simpl. rewrite Hm. by rewrite getTotalSize_empty.
Qed.

(** C5.  [setScrollOffset] with the current offset changes nothing:
    offset, dirty flag and data manager stay as they are.  With another
    value it stores the new offset, sets the dirty flag and goes through
    [updateVirutalListDataRange], which on the dirty flag calls
    [__nextTickUpdate] once and lowers the flag again; unless the data
    manager is destroyed, a recompute is pending afterwards. *)
Theorem setScrollOffset_effect (scrollOffset : Z) s :
  (offset s = scrollOffset → setScrollOffset scrollOffset s = s)
  ∧ (offset s ≠ scrollOffset →
       let dirty := set_needUpdate true (set_offset scrollOffset s) in
       let s' := setScrollOffset scrollOffset s in
       s' = updateVirutalListDataRange dirty
       ∧ offset dirty = scrollOffset ∧ needUpdate dirty = true
       ∧ offset s' = scrollOffset
       ∧ dataManager s' = __nextTickUpdate (dataManager s)
       ∧ needUpdate s' = false
       ∧ (__destroyed (dataManager s) = false → __pending (dataManager s') = true)
       ∧ styleCache s' = styleCache s
       ∧ sizeAndPositionManager s' = sizeAndPositionManager s).
Proof.
  unfold setScrollOffset. split.
  - intros H. by rewrite (proj2 (Z.eqb_eq _ _) H).
  - intros H. rewrite (proj2 (Z.eqb_neq _ _) H). simpl.
    repeat split.
    intros Hd. unfold __nextTickUpdate. rewrite Hd.
    by destruct (__pending (dataManager s)) eqn:E.
Qed.

End state_claims.

Section scheduling.
Context {T : Type}.
Implicit Types (s : VirtualList T) (dm : VirutalListDataManager T).

Lemma nextTickUpdate_live dm :
  __destroyed dm = false → __nextTickUpdate dm = setPending true dm.
Proof.
  intros Hd. unfold __nextTickUpdate. rewrite Hd.
  destruct (__pending dm) eqn:E; [|done].
  destruct dm; simpl in *; by subst.
Qed.

Lemma nextTickUpdate_destroyed dm :
  __destroyed dm = true → __nextTickUpdate dm = dm.
Proof. intros Hd. unfold __nextTickUpdate. by rewrite Hd. Qed.

Lemma nextTickUpdate_iter (n : nat) dm :
  (1 ≤ n)%nat → __destroyed dm = false →
  Nat.iter n __nextTickUpdate dm = setPending true dm.
Proof.
  intros Hn Hd. induction n as [|n IH]; [lia|].
  destruct n as [|n].
  - simpl. by apply nextTickUpdate_live.
  - rewrite Nat.iter_succ, IH by lia. by rewrite nextTickUpdate_live.
Qed.

Lemma setScrollOffset_change (o : Z) s :
  o ≠ offset s →
  dataManager (setScrollOffset o s) = __nextTickUpdate (dataManager s)
  ∧ offset (setScrollOffset o s) = o.
Proof.
  intros H. unfold setScrollOffset.
  by rewrite (proj2 (Z.eqb_neq (offset s) o)).
Qed.

Lemma setScrollOffsets_allChange (os : list Z) : ∀ s,
  allChange (offset s) os →
  dataManager (setScrollOffsets os s)
  = Nat.iter (length os) __nextTickUpdate (dataManager s)
  ∧ offset (setScrollOffsets os s) = default (offset s) (last os).
Proof.
  induction os as [|o os IH]; intros s H; [done|].
  destruct H as [Ho H].
  destruct (setScrollOffset_change o s Ho) as [Hdm Hoff].
  unfold setScrollOffsets in *. simpl foldl.
  destruct (IH (setScrollOffset o s)) as [IH1 IH2]; [by rewrite Hoff|].
  rewrite IH1, IH2, Hdm, Hoff. split.
  - simpl length. by rewrite Nat.iter_succ_r.
  - destruct os as [|o' os]; [done|]. rewrite last_cons_cons.
    destruct (last (o' :: os)) eqn:E; [done|]. by apply last_None in E.
Qed.

(** After [destroy], scrolling arms nothing. *)
Lemma setScrollOffsets_destroyed (os : list Z) : ∀ s,
  __destroyed (dataManager s) = true →
  dataManager (setScrollOffsets os s) = dataManager s.
Proof.
  induction os as [|o os IH]; intros s Hd; [done|].
  unfold setScrollOffsets in *. simpl foldl.
  assert (dataManager (setScrollOffset o s) = dataManager s) as Hdm.
  { unfold setScrollOffset, updateVirutalListDataRange.
    destruct (negb (offset s =? o)); [|done]. simpl.
    by apply nextTickUpdate_destroyed. }
  rewrite IH; rewrite Hdm; done.
Qed.

Lemma deferredCallback_idle s :
  __pending (dataManager s) = false → deferredCallback s = s.
Proof. intros H. unfold deferredCallback. by rewrite H. Qed.

(** A pending callback runs [update] once on the state it finds. *)
Lemma deferredCallback_fires s :
  __pending (dataManager s) = true → __updater (dataManager s) = true →
  let s1 := set_dataManager (setPending false (dataManager s)) s in
  let run := update (data (__getState (dataManager s))) s1 in
  deferredCallback s
  = set_dataManager (deliver run.1 (setPending false (dataManager s))) run.2.
Proof.
  intros Hp Hu s1 run. unfold deferredCallback. rewrite Hp, Hu. simpl.
  fold s1. change (update (data (__state (dataManager s))) s1) with run.
  destruct (update_frame (data (__getState (dataManager s))) s1) as (_ & Hdm & _).
  fold run in Hdm. destruct run as [r s2]. simpl in *. by rewrite Hdm.
Qed.

Lemma deferredCallback_executions s :
  __pending (dataManager s) = true → __updater (dataManager s) = true →
  executions (deferredCallback s) = S (executions s).
Proof.
  intros Hp Hu. rewrite (deferredCallback_fires s Hp Hu).
  unfold executions. simpl. rewrite length_app. simpl. lia.
Qed.

(** Once the dirty flag is down, [updateVirutalListDataRange] does nothing,
    so any number of calls in a row amounts to the first one. *)
Lemma updateVirutalListDataRange_clean s :
  needUpdate s = false → updateVirutalListDataRange s = s.
Proof. intros H. unfold updateVirutalListDataRange. by rewrite H. Qed.

Lemma updateVirutalListDataRange_lowers s :
  needUpdate (updateVirutalListDataRange s) = false.
Proof.
  unfold updateVirutalListDataRange. by destruct (needUpdate s) eqn:E.
Qed.

Lemma updateVirutalListDataRange_iter (n : nat) s :
  (1 ≤ n)%nat →
  Nat.iter n updateVirutalListDataRange s = updateVirutalListDataRange s.
Proof.
  intros Hn. induction n as [|n IH]; [lia|].
  destruct n as [|n]; [done|].
  rewrite Nat.iter_succ, IH by lia.
  apply updateVirutalListDataRange_clean, updateVirutalListDataRange_lowers.
Qed.

(** C7.  [n >= 1] synchronous [setScrollOffset] calls that each change
    the offset invoke the scheduler [n] times, and when the deferred
    callback then fires it runs the recompute exactly once: one render
    list is delivered, it is the one [update] computes on the component
    as it is when the callback fires, holding the offset of the last
    call, and nothing is left pending, so a further firing does nothing.
    Likewise [n] calls of [updateVirutalListDataRange] on a dirty
    component invoke the scheduler once and lead to one recompute. *)
Theorem recompute_coalesced (n : nat) (os : list Z) s :
  (1 ≤ n)%nat →
  length os = n →
  allChange (offset s) os →
  __updater (dataManager s) = true →
  __destroyed (dataManager s) = false →
  let s' := setScrollOffsets os s in
  let atFire := set_dataManager (setPending false (dataManager s')) s' in
  let fired := deferredCallback s' in
  dataManager s' = Nat.iter n __nextTickUpdate (dataManager s)
  ∧ offset atFire = default (offset s) (last os)
  ∧ executions fired = S (executions s)
  ∧ __delivered (dataManager fired)
    = __delivered (dataManager s)
      ++ [(update (data (__getState (dataManager s'))) atFire).1]
  ∧ deferredCallback fired = fired
  ∧ (needUpdate s = true →
       let sN := Nat.iter n updateVirutalListDataRange s in
       dataManager sN = __nextTickUpdate (dataManager s)
       ∧ executions (deferredCallback sN) = S (executions s)
       ∧ deferredCallback (deferredCallback sN) = deferredCallback sN).
Proof.
  intros Hn Hlen Hall Hu Hd s' atFire fired.
  destruct (setScrollOffsets_allChange os s Hall) as [Hdm Hoff].
  rewrite Hlen in Hdm. fold s' in Hdm, Hoff.
  assert (dataManager s' = setPending true (dataManager s)) as Hdm'.
  { rewrite Hdm. by apply nextTickUpdate_iter. }
  assert (fired = set_dataManager
                    (deliver (update (data (__getState (dataManager s'))) atFire).1
                             (setPending false (dataManager s')))
                    (update (data (__getState (dataManager s'))) atFire).2) as Hf.
  { apply deferredCallback_fires; by rewrite Hdm'. }
  split; [done|]. split; [done|].
  assert (__delivered (dataManager fired)
          = __delivered (dataManager s)
            ++ [(update (data (__getState (dataManager s'))) atFire).1]) as Hdel.
  { rewrite Hf. simpl. by rewrite Hdm'. }
  split; [|split; [done|split]].
  - unfold executions. rewrite Hdel, length_app. simpl. lia.
  - apply deferredCallback_idle. by rewrite Hf.
  - intros Hdirty sN. unfold sN.
    rewrite (updateVirutalListDataRange_iter n s Hn).
    assert (dataManager (updateVirutalListDataRange s)
            = __nextTickUpdate (dataManager s)) as HdN.
    { unfold updateVirutalListDataRange. by rewrite Hdirty. }
    assert (__pending (dataManager (updateVirutalListDataRange s)) = true) as Hp.
    { by rewrite HdN, nextTickUpdate_live. }
    assert (__updater (dataManager (updateVirutalListDataRange s)) = true) as Hup.
    { by rewrite HdN, nextTickUpdate_live. }
    split; [done|]. split.
    + rewrite (deferredCallback_executions _ Hp Hup).
      unfold executions. by rewrite HdN, nextTickUpdate_live.
    + apply deferredCallback_idle. by rewrite (deferredCallback_fires _ Hp Hup).
Qed.

(** C8.  [componentWillUnmount] cancels the delayed-update timer when
    one is set and destroys the data manager, which drops the pending
    recompute: a recompute that would have run had the callback fired
    does not run after the unmount, neither at once nor after later
    scroll calls, so the number of executions stays what it was. *)
Theorem unmount_cancels_recompute s :
  let s' := componentWillUnmount s in
  __destroyed (dataManager s') = true
  ∧ __pending (dataManager s') = false
  ∧ (∀ t, delayUpdateTimer s = Some t → t ∉ timers s')
  ∧ deferredCallback s' = s'
  ∧ executions (deferredCallback s') = executions s
  ∧ (∀ os : list Z,
       executions (deferredCallback (setScrollOffsets os s')) = executions s)
  ∧ (__pending (dataManager s) = true → __updater (dataManager s) = true →
       executions (deferredCallback s) = S (executions s)).
Proof.
  intros s'.
  assert (dataManager s' = destroy (dataManager s)) as Hdm.
  { unfold s', componentWillUnmount. by destruct (delayUpdateTimer s). }
  assert (deferredCallback s' = s') as Hidle.
  { apply deferredCallback_idle. by rewrite Hdm. }
  split; [by rewrite Hdm|]. split; [by rewrite Hdm|]. split; [|split; [done|split; [|split]]].
  - intros t Ht. unfold s', componentWillUnmount. rewrite Ht. simpl.
    intros [_ Hn]%elem_of_difference. apply Hn. by apply elem_of_singleton.
  - rewrite Hidle. unfold executions. by rewrite Hdm.
  - intros os.
    assert (dataManager (setScrollOffsets os s') = dataManager s') as Hos.
    { apply setScrollOffsets_destroyed. by rewrite Hdm. }
    rewrite deferredCallback_idle by (by rewrite Hos, Hdm).
    unfold executions. by rewrite Hos, Hdm.
  - intros Hp Hu. by apply deferredCallback_executions.
Qed.

End scheduling.

(** ** The statements at concrete lists *)

(** The visible-range scenario of the specification: five items of size
    20, a container of 50 at offset 25. *)
Example visible_range_scenario :
  (SAPM.getVisibleRange 50 25 0 exampleManager).1
  = {| SAPM.start := Some 1; SAPM.end_ := Some 3 |}
  ∧ (SAPM.getVisibleRange 50 25 1 exampleManager).1
    = {| SAPM.start := Some 0; SAPM.end_ := Some 4 |}
  ∧ SAPM.getTotalSize exampleManager = 100.
Proof. vm_compute. auto. Qed.

(** The sticky scenario of the specification: item 2 sticky, visible
    range [3, 4]; index 2 comes first and is not repeated. *)
Example sticky_scenario :
  ∃ items,
    (update (data exampleState) (set_offset 65 (exampleList VERTICAL 300 50))).1
    = Ok items
    ∧ index <$> items = [2; 3; 4]
    ∧ item <$> items = [Some "c"; Some "d"; Some "e"]%string
    ∧ position ∘ raw ∘ style <$> items = [sticky; absolute; absolute].
Proof.
  eexists. split; [vm_compute; reflexivity|].
  split; [reflexivity|]. split; reflexivity.
Qed.

(** Outside the hypotheses of the render-list statement: a sticky index
    that is no index of the list makes [update] throw, and a sticky index
    given twice is rendered twice. *)
Example update_throws_on_foreign_sticky_index :
  let st := {| itemCount := 5; itemSize := SizeFixed 20; estimatedSize := None;
               overscan := 0; stickyIndices := Some [7]; data := data exampleState |} in
  (update (data st) (mountedList st VERTICAL 300 50)).1 = Throw (IndexOutOfRange 7).
Proof. vm_compute. reflexivity. Qed.

Example update_repeats_repeated_sticky_index :
  let st := {| itemCount := 5; itemSize := SizeFixed 20; estimatedSize := None;
               overscan := 0; stickyIndices := Some [2; 2]; data := data exampleState |} in
  ∃ items, (update (data st) (mountedList st VERTICAL 300 50)).1 = Ok items
           ∧ index <$> items = [2; 2; 0; 1].
Proof. eexists. split; [vm_compute; reflexivity|reflexivity]. Qed.

(** C1, counterexample.  With a container of height 0 the visible range
    is empty, and [update] returns no item at all although index 2 is
    configured as sticky; the same happens on a list without items. *)
Lemma update_drops_sticky_when_range_empty :
  let s := exampleList VERTICAL 300 0 in
  let s0 := mountedList emptyState VERTICAL 300 50 in
  stickyIndices (__getState (dataManager s)) = Some [2]
  ∧ (update (data exampleState) s).1 = Ok []
  ∧ stickyIndices (__getState (dataManager s0)) = Some [2]
  ∧ (update (data exampleState) s0).1 = Ok [].
Proof. vm_compute. auto. Qed.

(** An instance: the list scrolled to offset 65, where the sticky item 2
    lies before the visible range [3, 4]. *)
Lemma update_render_list_witness :
  let s := set_offset 65 (exampleList VERTICAL 300 50) in
  ∃ a e m' items s',
    SAPM.getVisibleRange 50 65 0 exampleManager
      = ({| SAPM.start := Some a; SAPM.end_ := Some e |}, m')
    ∧ update (data exampleState) s = (Ok items, s')
    ∧ index <$> items = [2] ++ filter (λ i, i ∉ [2]) (seqZ a (e - a + 1))
    ∧ Forall (goodItem (data exampleState) VERTICAL [2]) items
    ∧ cacheAgrees VERTICAL [2] (styleCache s').
Proof.
  intros s.
  apply (update_render_list (data exampleState) s exampleManager).
  - reflexivity.
  - reflexivity.
  - reflexivity.
  - change (Forall (λ i, 0 ≤ i < 5) [2]).
    constructor; [split; [discriminate|reflexivity]|constructor].
  - apply cacheAgrees_empty.
Defined.

(** C2, counterexample.  When scrolling horizontally the cross-axis
    extent of a computed style is the height, which is ['auto'] and not
    ['100%']. *)
Lemma getStyle_horizontal_cross_axis_auto :
  ∃ st, (getStyle 2 (Some true) (exampleList HORIZONTAL 300 50)).1 = Ok st
        ∧ crossAxisSize HORIZONTAL (raw st) = Str "auto"
        ∧ crossAxisSize HORIZONTAL (raw st) ≠ Str "100%".
Proof. eexists. split; [vm_compute; reflexivity|]. split; [reflexivity|discriminate]. Qed.

(** An instance: a normal item of the horizontal list. *)
Lemma getStyle_computed_witness :
  ∃ sp m' st s',
    SAPM.getSizeAndPositionForIndex 3 exampleManager = (Ok sp, m')
    ∧ getStyle 3 None (exampleList HORIZONTAL 300 50) = (Ok st, s')
    ∧ scrollAxisOffset HORIZONTAL (raw st) = SAPM.offset sp
    ∧ crossAxisSize HORIZONTAL (raw st) = Str "auto".
Proof.
  destruct (getStyle_computed 3 None (exampleList HORIZONTAL 300 50) exampleManager)
    as (sp & m' & st & s' & H1 & H2 & _ & H4 & _ & H6).
  - reflexivity.
  - reflexivity.
  - split; [discriminate|reflexivity].
  - exists sp, m', st, s'. split; [exact H1|]. split; [exact H2|].
    split; [apply H4; reflexivity|exact H6].
Defined.

(** An instance: a list mounted with four items of size 10 and one style
    cached, whose state is then replaced by the example state of five
    items of size 20; only [onStateChange] brings the manager to the new
    count and the new getter and empties the cache. *)
Lemma onStateChange_reconfigures_witness :
  let prev := {| itemCount := 4; itemSize := SizeFixed 10; estimatedSize := None;
                 overscan := 0; stickyIndices := Some [2]; data := data exampleState |} in
  let changed :=
    set_dataManager
      {| __state := exampleState; __updater := true; __onStateChange := true;
         __pending := false; __destroyed := false; __delivered := [] |}
      (getStyle 1 None (mountedList prev VERTICAL 300 50)).2 in
  (∃ m, sizeAndPositionManager changed = Some m
        ∧ SAPM.itemCount m = 4 ∧ SAPM.itemSizeGetter m 0 = Some 10)
  ∧ styleCache changed !! 1 ≠ None
  ∧ ∃ s' m2,
      onStateChange prev changed = (Ok tt, s')
      ∧ sizeAndPositionManager s' = Some (SAPM.resetItem 0 m2)
      ∧ SAPM.itemCount m2 = 5
      ∧ SAPM.itemSizeGetter m2 0 = Some 20
      ∧ styleCache s' = ∅.
Proof.
  intros prev changed.
  split; [eexists; split; [vm_compute; reflexivity|split; reflexivity]|].
  split; [vm_compute; discriminate|].
  destruct (onStateChange_reconfigures prev changed
              (default exampleManager (sizeAndPositionManager changed)))
    as (m1 & m2 & s' & H1 & H2 & H3 & _ & H5 & _).
  - vm_compute. reflexivity.
  - exists s', m2. split; [exact H1|]. split; [exact H2|].
    destruct H3 as (_ & _ & Hc); [discriminate|].
    destruct H5 as (_ & Hg & _ & Hcache & _); [left; reflexivity|].
    split; [exact Hc|]. split; [by rewrite Hg|exact Hcache].
Defined.

(** C4, counterexample.  A container of height 0 over five items of size
    20: the container extent is not positive, yet the total size is 100. *)
Lemma total_size_nonzero_in_empty_container :
  let s := exampleList VERTICAL 300 0 in
  sizeAndPositionManager s = Some exampleManager
  ∧ getContainerSize s ≤ 0
  ∧ SAPM.getTotalSize exampleManager = 100
  ∧ SAPM.getTotalSize exampleManager ≠ 0.
Proof. repeat split; discriminate. Qed.

(** An instance: a container of height 0, and a list without items. *)
Lemma empty_range_renders_nothing_witness :
  update (data exampleState) (exampleList VERTICAL 300 0)
  = (Ok [], exampleList VERTICAL 300 0)
  ∧ SAPM.getTotalSize (SAPM.create 0 (getItemSizeGetter (SizeFixed 20))
                                   (getEstimatedGetter None (SizeFixed 20))) = 0
  ∧ update [] (mountedList emptyState VERTICAL 300 50)
    = (Ok [], mountedList emptyState VERTICAL 300 50).
Proof.
  split; [|split].
  - apply (empty_range_renders_nothing (data exampleState) (exampleList VERTICAL 300 0)
             exampleManager); [reflexivity|].
    right. discriminate.
  - apply (empty_range_renders_nothing [] (mountedList emptyState VERTICAL 300 50) _
             eq_refl). reflexivity.
  - apply (empty_range_renders_nothing [] (mountedList emptyState VERTICAL 300 50) _
             eq_refl). left. reflexivity.
Defined.

(** An instance: scrolling the fresh list to 0 and to 25. *)
Lemma setScrollOffset_effect_witness :
  setScrollOffset 0 (exampleList VERTICAL 300 50) = exampleList VERTICAL 300 50
  ∧ offset (setScrollOffset 25 (exampleList VERTICAL 300 50)) = 25
  ∧ __pending (dataManager (setScrollOffset 25 (exampleList VERTICAL 300 50))) = true.
Proof.
  split.
  - apply (setScrollOffset_effect 0 (exampleList VERTICAL 300 50)). reflexivity.
  - destruct (setScrollOffset_effect 25 (exampleList VERTICAL 300 50)) as [_ H].
    destruct H as (_ & _ & _ & Ho & _ & _ & Hp & _); [discriminate|].
    split; [exact Ho|]. apply Hp. reflexivity.
Defined.

(** An instance: item 2 of the fresh vertical list. *)
Lemma getStyle_memoized_witness :
  let s := exampleList VERTICAL 300 50 in
  ∃ st, styleCache (getStyle 2 (Some true) s).2 !! 2 = Some st
        ∧ getStyle 2 None (getStyle 2 (Some true) s).2
          = (Ok st, (getStyle 2 (Some true) s).2)
        ∧ styleCache (recomputeSizes None (getStyle 2 (Some true) s).2).2 = ∅.
Proof.
  intros s.
  destruct (getStyle_memoized 2 (Some true) s) as (_ & H2 & _).
  destruct (H2 exampleManager {| SAPM.offset := 40; SAPM.size := 20 |}
               (SAPM.getSizeAndPositionForIndex 2 exampleManager).2)
    as (_ & Hc & _); [reflexivity|reflexivity|reflexivity|].
  eexists. split; [exact Hc|]. split.
  - apply (getStyle_memoized 2 None (getStyle 2 (Some true) s).2). exact Hc.
  - apply (getStyle_memoized 2 None (getStyle 2 (Some true) s).2).
Defined.

(** An instance: three scroll calls before the callback fires. *)
Lemma recompute_coalesced_witness :
  let s := exampleList VERTICAL 300 50 in
  let s' := setScrollOffsets [10; 20; 65] s in
  executions (deferredCallback s') = 1%nat
  ∧ __delivered (dataManager (deferredCallback s'))
    = [(update (data exampleState)
               (set_dataManager (setPending false (dataManager s')) s')).1]
  ∧ offset s' = 65
  ∧ executions (deferredCallback (Nat.iter 3 updateVirutalListDataRange s)) = 1%nat.
Proof.
  intros s s'.
  destruct (recompute_coalesced 3 [10; 20; 65] s) as (_ & Ho & He & Hd & _ & HN).
  - apply le_S, le_S, le_n.
  - reflexivity.
  - repeat split; discriminate.
  - reflexivity.
  - reflexivity.
  - split; [exact He|]. split; [exact Hd|]. split; [exact Ho|].
    apply HN. reflexivity.
Defined.

(** An instance: a scroll call, then the unmount. *)
Lemma unmount_cancels_recompute_witness :
  let s := setScrollOffset 25 (exampleList VERTICAL 300 50) in
  executions (deferredCallback s) = 1%nat
  ∧ executions (deferredCallback (componentWillUnmount s)) = 0%nat
  ∧ executions (deferredCallback (setScrollOffsets [40; 65] (componentWillUnmount s)))
    = 0%nat.
Proof.
  intros s.
  destruct (unmount_cancels_recompute s) as (_ & _ & _ & _ & H1 & H2 & H3).
  split; [apply H3; reflexivity|]. split; [exact H1|apply H2].
Defined.

(** An instance: item 2 cached as a normal item and asked for
    again as a sticky one. *)
Lemma getStyle_ignores_sticky_once_cached_witness :
  let s := exampleList VERTICAL 300 50 in
  let st := normalizeStyle (itemStyle VERTICAL false {| SAPM.offset := 40; SAPM.size := 20 |}) in
  getStyle 2 None s = (Ok st, (getStyle 2 None s).2)
  ∧ getStyle 2 (Some true) (getStyles [(3, Some true); (7, None)] (getStyle 2 None s).2)
    = (Ok st, getStyles [(3, Some true); (7, None)] (getStyle 2 None s).2)
  ∧ position (raw st) = absolute.
Proof.
  intros s st.
  assert (getStyle 2 None s = (Ok st, (getStyle 2 None s).2)) as H by reflexivity.
  split; [exact H|]. split; [|reflexivity].
  apply (getStyle_ignores_sticky_once_cached 2 None s st _ H).
Defined.

(** An instance: only the data differs from the previous state. *)
Lemma onStateChange_always_recomputes_witness :
  let s := (update (data exampleState) (exampleList VERTICAL 300 50)).2 in
  let prev := {| itemCount := 5; itemSize := SizeFixed 20; estimatedSize := None;
                 overscan := 0; stickyIndices := Some [2]; data := [] |} in
  styleCache s !! 2 ≠ None
  ∧ ∃ s', onStateChange prev s = (Ok tt, s') ∧ styleCache s' = ∅.
Proof.
  intros s prev. split; [vm_compute; discriminate|].
  destruct (onStateChange_always_recomputes prev s
              (default exampleManager (sizeAndPositionManager s)))
    as (m2 & s' & H1 & H2 & _).
  - reflexivity.
  - exists s'. split; [exact H1|exact H2].
Defined.

(** ** What a render pass does to the style cache *)

Section render_pass.
Context {T : Type}.
Implicit Types (s : VirtualList T) (i : Z) (data : list T).

Lemma getStyle_subseteq i (b : option bool) s :
  styleCache s ⊆ styleCache (getStyle i b s).2.
Proof.
  apply map_subseteq_spec. intros j st H. by apply getStyle_keeps.
Qed.

Lemma getStyle_dom i (b : option bool) s st s' :
  getStyle i b s = (Ok st, s') →
  dom (styleCache s') = {[i]} ∪ dom (styleCache s).
Proof.
  rewrite getStyle_eq.
  destruct (styleCache s !! i) as [st0|] eqn:Hi.
  { intros [= <- <-]. apply (elem_of_dom_2 (styleCache s)) in Hi.
    symmetry. by apply subseteq_union_1_L, singleton_subseteq_l. }
  destruct (sizeAndPositionManager s) as [m|]; [|done].
  destruct (SAPM.getSizeAndPositionForIndex i m) as [[sp|e] m']; [|done].
  intros [= <- <-]. simpl. apply dom_insert_L.
Qed.

(** A relation that every step of [f] respects is respected by the
    whole loop, whether it ends normally or throws. *)
Lemma foldM_respects {A B} (R : VirtualList T → VirtualList T → Prop)
  (f : B → A → M (VirtualList T) B) (l : list A) :
  (∀ s, R s s) → (∀ s1 s2 s3, R s1 s2 → R s2 s3 → R s1 s3) →
  (∀ acc x s, R s (f acc x s).2) →
  ∀ acc s, R s (foldM f l acc s).2.
Proof.
  intros Hrefl Htrans Hf. induction l as [|x l IH]; intros acc s; [apply Hrefl|].
  rewrite foldM_cons. specialize (Hf acc x s).
  destruct (f acc x s) as [[acc'|e] s']; simpl in *; [|done].
  eapply Htrans; [done|apply IH].
Qed.

Lemma pushUnless_subseteq P data b (items : list (VirutalListItemData T)) i s :
  styleCache s ⊆ styleCache (pushUnless P data b items i s).2.
Proof.
  unfold pushUnless. destruct (P i); [done|].
  rewrite pushItem_eq. pose proof (getStyle_subseteq i b s) as H.
  by destruct (getStyle i b s) as [[st|e] s'].
Qed.

Lemma pushUnless_loop_subseteq P data b (l : list Z)
  (acc : list (VirutalListItemData T)) s :
  styleCache s ⊆ styleCache (foldM (pushUnless P data b) l acc s).2.
Proof.
  apply (foldM_respects (λ s s', styleCache s ⊆ styleCache s')).
  - done.
  - intros s1 s2 s3 H1 H2. by transitivity (styleCache s2).
  - intros. apply pushUnless_subseteq.
Qed.

(** A loop of [update] that ends normally: what it appended, and what it
    left in the cache. *)
Lemma pushUnless_loop_ok P data b (l : list Z) :
  ∀ (acc items : list (VirutalListItemData T)) s s',
  foldM (pushUnless P data b) l acc s = (Ok items, s') →
  ∃ items',
    items = acc ++ items'
    ∧ index <$> items' = filter (λ i, P i = false) l
    ∧ Forall (renderedFrom data s') items'
    ∧ dom (styleCache s') = dom (styleCache s) ∪ list_to_set (index <$> items').
Proof.
  induction l as [|i l IH]; intros acc items s s' H.
  { simpl in H. unfold ret in H. injection H as <- <-.
    exists []. rewrite app_nil_r. repeat split; [constructor|].
    by rewrite fmap_nil, list_to_set_nil, (right_id_L ∅ (∪)). }
  rewrite foldM_cons in H. unfold pushUnless at 1 in H.
  destruct (P i) eqn:HP.
  - unfold ret in H. destruct (IH _ _ _ _ H) as (items' & -> & Hidx & Hall & Hdom).
    exists items'. split; [done|]. split; [|done].
    rewrite filter_cons_False; [done|]. by rewrite HP.
  - rewrite pushItem_eq in H.
    destruct (getStyle i b s) as [[st|e] s1] eqn:G; [|done].
    destruct (IH _ _ _ _ H) as (items' & -> & Hidx & Hall & Hdom).
    exists ({| index := i; style := st; item := arrayGet data i |} :: items').
    split; [by rewrite <- app_assoc|]. split; [|split].
    + rewrite filter_cons_True by done. by rewrite fmap_cons, Hidx.
    + constructor; [|done]. split; [done|]. simpl.
      pose proof (pushUnless_loop_subseteq P data b l
                    (acc ++ [{| index := i; style := st; item := arrayGet data i |}]) s1)
        as Hsub.
      rewrite H in Hsub. simpl in Hsub.
      eapply (proj1 (map_subseteq_spec _ _) Hsub). by eapply getStyle_caches.
    + rewrite Hdom, (getStyle_dom _ _ _ _ _ G), fmap_cons, list_to_set_cons.
      by rewrite (comm_L (∪) {[i]} (dom (styleCache s))), (assoc_L (∪)).
Qed.

Lemma filter_all_false (l : list Z) : filter (λ i, (λ _ : Z, false) i = false) l = l.
Proof.
  induction l as [|i l IH]; [done|]. rewrite filter_cons_True by done. by rewrite IH.
Qed.

Lemma filter_not_sticky (so : option (list Z)) (l : list Z) :
  filter (λ i, isStickyIndex so i = false) l = filter (λ i, i ∉ default [] so) l.
Proof.
  apply list_filter_iff. intros i. rewrite isStickyIndex_default.
  apply bool_decide_eq_false.
Qed.

(** [update] in terms of the loop body. *)
Lemma update_eq_loops data s :
  update data s =
    match sizeAndPositionManager s with
    | None => (Throw TypeError, s)
    | Some m =>
        let so := stickyIndices (__getState (dataManager s)) in
        let rm := SAPM.getVisibleRange (getContainerSize s) (offset s)
                    (overscan (__getState (dataManager s))) m in
        let s1 := set_sizeAndPositionManager (Some rm.2) s in
        match SAPM.start rm.1, SAPM.end_ rm.1 with
        | Some a, Some e =>
            match foldM (pushUnless (λ _, false) data (Some true)) (default [] so) [] s1 with
            | (Ok items, s2) =>
                foldM (pushUnless (isStickyIndex so) data None)
                      (seqZ a (e - a + 1)) items s2
            | (Throw err, s2) => (Throw err, s2)
            end
        | _, _ => (Ok [], s1)
        end
    end.
Proof.
  rewrite update_eq. destruct (sizeAndPositionManager s) as [m|]; [|done].
  cbv zeta.
  destruct (SAPM.getVisibleRange _ _ _ m) as [[[a|] [e|]] m']; simpl; try done.
  by destruct (stickyIndices (__getState (dataManager s))).
Qed.

(** A render pass that ends normally. *)
Lemma update_ok_inv data s (m : SAPM.t) items s' :
  sizeAndPositionManager s = Some m →
  update data s = (Ok items, s') →
  let so := stickyIndices (__getState (dataManager s)) in
  let range := (SAPM.getVisibleRange (getContainerSize s) (offset s)
                  (overscan (__getState (dataManager s))) m).1 in
  match SAPM.start range, SAPM.end_ range with
  | Some a, Some e =>
      index <$> items
      = default [] so ++ filter (λ i, i ∉ default [] so) (seqZ a (e - a + 1))
  | _, _ => items = []
  end
  ∧ Forall (renderedFrom data s') items
  ∧ dom (styleCache s') = dom (styleCache s) ∪ list_to_set (index <$> items).
Proof.
  intros Hm H so range. rewrite update_eq_loops, Hm in H. cbv zeta in H.
  fold so in H. subst range.
  destruct (SAPM.getVisibleRange _ _ _ m) as [[[a|] [e|]] m']; simpl in *;
    try (injection H as <- <-; repeat split; [constructor|];
         by rewrite fmap_nil, list_to_set_nil, (right_id_L ∅ (∪))).
  set (s1 := set_sizeAndPositionManager (Some m') s) in *.
  destruct (foldM (pushUnless (λ _, false) data (Some true)) (default [] so) [] s1)
    as [[items1|err] s2] eqn:H1; [|done].
  destruct (pushUnless_loop_ok _ _ _ _ _ _ _ _ H1) as (its1 & -> & Hi1 & Ha1 & Hd1).
  destruct (pushUnless_loop_ok _ _ _ _ _ _ _ _ H) as (its2 & -> & Hi2 & Ha2 & Hd2).
  rewrite filter_all_false in Hi1. rewrite filter_not_sticky in Hi2.
  simpl in *. split; [|split].
  - by rewrite fmap_app, Hi1, Hi2.
  - apply Forall_app. split; [|done].
    pose proof (pushUnless_loop_subseteq (isStickyIndex so) data None
                  (seqZ a (e - a + 1)) its1 s2) as Hsub.
    rewrite H in Hsub. simpl in Hsub.
    eapply Forall_impl; [exact Ha1|]. intros it [Hit Hc]. split; [done|].
    by eapply (proj1 (map_subseteq_spec _ _) Hsub).
  - rewrite Hd2, Hd1, fmap_app, list_to_set_app_L. simpl.
    by rewrite (assoc_L (∪)).
Qed.

(** The relations a render pass respects. *)
Lemma update_respects (R : VirtualList T → VirtualList T → Prop) data s :
  (∀ s, R s s) → (∀ s1 s2 s3, R s1 s2 → R s2 s3 → R s1 s3) →
  (∀ s m c o ov,
     sizeAndPositionManager s = Some m →
     R s (set_sizeAndPositionManager (Some (SAPM.getVisibleRange c o ov m).2) s)) →
  (∀ i b s, R s (getStyle i b s).2) →
  R s (update data s).2.
Proof.
  intros Hrefl Htrans Hset Hget. rewrite update_eq_loops.
  destruct (sizeAndPositionManager s) as [m|] eqn:Hm; [|apply Hrefl]. cbv zeta.
  specialize (Hset s m (getContainerSize s) (offset s)
                (overscan (__getState (dataManager s))) Hm).
  assert (∀ P b l (acc : list (VirutalListItemData T)) s0,
            R s0 (foldM (pushUnless P data b) l acc s0).2) as Hloop.
  { intros P b l. apply foldM_respects; [done|done|].
    intros acc x s0. unfold pushUnless. destruct (P x); [apply Hrefl|].
    rewrite pushItem_eq. specialize (Hget x b s0).
    by destruct (getStyle x b s0) as [[st|e] s']. }
  destruct (SAPM.start _) as [a|]; [|apply Hset].
  destruct (SAPM.end_ _) as [e|]; [|apply Hset].
  match goal with
  | |- context [foldM (pushUnless (λ _, false) data (Some true)) ?l ?acc ?s1] =>
      pose proof (Hloop (λ _, false) (Some true) l acc s1) as H1;
      destruct (foldM (pushUnless (λ _, false) data (Some true)) l acc s1)
        as [[items|err] s2]
  end; simpl in H1.
  - eapply Htrans; [apply Hset|]. eapply Htrans; [exact H1|]. apply Hloop.
  - eapply Htrans; [apply Hset|exact H1].
Qed.

Lemma update_subseteq data s : styleCache s ⊆ styleCache (update data s).2.
Proof.
  apply (update_respects (λ s s', styleCache s ⊆ styleCache s')).
  - done.
  - intros s1 s2 s3 H1 H2. by transitivity (styleCache s2).
  - done.
  - intros. apply getStyle_subseteq.
Qed.

Lemma update_ok_mounted data s items s' :
  update data s = (Ok items, s') → ∃ m, sizeAndPositionManager s = Some m.
Proof.
  rewrite update_eq. destruct (sizeAndPositionManager s) as [m|]; [by exists m|done].
Qed.

Lemma getVisibleRange_itemCount c o ov (m : SAPM.t) :
  SAPM.itemCount (SAPM.getVisibleRange c o ov m).2 = SAPM.itemCount m.
Proof.
  unfold SAPM.getVisibleRange.
  destruct ((SAPM.itemCount m =? 0) || (c <=? 0)); [done|].
  destruct (SAPM.findStart _ 0 o m) as [a m1] eqn:E1.
  destruct (SAPM.findEnd _ a (o + c) m1) as [e m2] eqn:E2. simpl.
  transitivity (SAPM.itemCount m1).
  - by rewrite <- (findEnd_itemCount (Z.to_nat (SAPM.itemCount m - 1 - a)) a (o + c) m1), E2.
  - by rewrite <- (findStart_itemCount (Z.to_nat (SAPM.itemCount m)) 0 o m), E1.
Qed.

Lemma getStyle_managerCounts n i (b : option bool) s :
  managerCounts n s → managerCounts n (getStyle i b s).2.
Proof.
  intros (m & Hm & Hn). rewrite getStyle_eq.
  destruct (styleCache s !! i); [by exists m|]. rewrite Hm.
  pose proof (getSizeAndPositionForIndex_itemCount i m) as Hc.
  destruct (SAPM.getSizeAndPositionForIndex i m) as [[sp|e] m']; simpl in *;
    exists m'; (split; [done|congruence]).
Qed.

Lemma setScrollOffset_keeps (o : Z) s :
  styleCache (setScrollOffset o s) = styleCache s
  ∧ sizeAndPositionManager (setScrollOffset o s) = sizeAndPositionManager s
  ∧ props (setScrollOffset o s) = props s.
Proof.
  unfold setScrollOffset, updateVirutalListDataRange.
  by destruct (negb (offset s =? o)).
Qed.

Lemma setScrollOffset_offset (o : Z) s : offset (setScrollOffset o s) = o.
Proof.
  unfold setScrollOffset. destruct (offset s =? o) eqn:E; simpl.
  - by apply Z.eqb_eq.
  - done.
Qed.

Lemma setScrollOffsets_keeps (os : list Z) : ∀ s,
  styleCache (setScrollOffsets os s) = styleCache s
  ∧ sizeAndPositionManager (setScrollOffsets os s) = sizeAndPositionManager s
  ∧ props (setScrollOffsets os s) = props s.
Proof.
  induction os as [|o os IH]; intros s; [done|].
  unfold setScrollOffsets in *. simpl foldl.
  destruct (IH (setScrollOffset o s)) as (H1 & H2 & H3).
  destruct (setScrollOffset_keeps o s) as (K1 & K2 & K3).
  rewrite H1, H2, H3. done.
Qed.

End render_pass.

(** ** Further properties of the render pass *)

Section render_pass_properties.
Context {T : Type}.
Implicit Types (s : VirtualList T) (i : Z) (data : list T).

(** X1.  Whenever [update] returns a render list, that list has the shape
    the code builds, whatever the indices are: nothing when the visible
    range has an undefined end, else the entries of [stickyIndices] in
    their order followed by the indices of [start, end] that are not
    sticky; and every entry carries [data[index]], which is [undefined]
    for an index outside the data array. *)
Theorem update_result_shape data s (m : SAPM.t) items s' :
  sizeAndPositionManager s = Some m →
  update data s = (Ok items, s') →
  let L := default [] (stickyIndices (__getState (dataManager s))) in
  let range := (SAPM.getVisibleRange (getContainerSize s) (offset s)
                  (overscan (__getState (dataManager s))) m).1 in
  match SAPM.start range, SAPM.end_ range with
  | Some a, Some e =>
      index <$> items = L ++ filter (λ i, i ∉ L) (seqZ a (e - a + 1))
  | _, _ => items = []
  end
  ∧ Forall (λ it, item it = arrayGet data (index it)) items
  ∧ Forall (λ it, index it < 0 ∨ Z.of_nat (length data) ≤ index it → item it = None)
           items.
Proof.
  intros Hm H L range.
  destruct (update_ok_inv data s m items s' Hm H) as (Hshape & Hall & _).
  split; [exact Hshape|].
  assert (Forall (λ it, item it = arrayGet data (index it)) items) as Hitem.
  { eapply Forall_impl; [exact Hall|]. by intros it [? _]. }
  split; [exact Hitem|].
  eapply Forall_impl; [exact Hitem|]. intros it -> Hlen.
  unfold arrayGet. destruct (index it <? 0) eqn:E; [done|].
  apply Z.ltb_ge in E. apply lookup_ge_None. lia.
Qed.

(** X2.  After a render pass that returns a list, the style of every
    entry is the style cached under its index, and the pass has added to
    the cache exactly the indices it rendered. *)
Theorem update_caches_rendered data s items s' :
  update data s = (Ok items, s') →
  Forall (λ it, styleCache s' !! index it = Some (style it)) items
  ∧ dom (styleCache s') = dom (styleCache s) ∪ list_to_set (index <$> items).
Proof.
  intros H. destruct (update_ok_mounted _ _ _ _ H) as [m Hm].
  destruct (update_ok_inv data s m items s' Hm H) as (_ & Hall & Hdom).
  split; [|exact Hdom].
  eapply Forall_impl; [exact Hall|]. by intros it [_ ?].
Qed.

(** X3.  When [stickyIndices] holds no index twice, no index occurs twice
    in a render list that [update] returns. *)
Theorem update_indices_NoDup data s items s' :
  NoDup (default [] (stickyIndices (__getState (dataManager s)))) →
  update data s = (Ok items, s') →
  NoDup (index <$> items).
Proof.
  intros HL H. destruct (update_ok_mounted _ _ _ _ H) as [m Hm].
  destruct (update_ok_inv data s m items s' Hm H) as (Hshape & _).
  cbv zeta in Hshape.
  destruct (SAPM.start _) as [a|]; [|subst; constructor].
  destruct (SAPM.end_ _) as [e|]; [|subst; constructor].
  rewrite Hshape. apply NoDup_app. split; [done|]. split.
  - intros x Hx Hf. apply list_elem_of_filter in Hf. by destruct Hf.
  - apply NoDup_filter, NoDup_seqZ.
Qed.

(** X4.  A render pass never evicts or overwrites a cached style: every
    style cached before [update] is cached unchanged after it, also when
    [update] throws half way. *)
Theorem update_keeps_cached_styles data s j st :
  styleCache s !! j = Some st →
  styleCache (update data s).2 !! j = Some st.
Proof.
  intros H. by apply (proj1 (map_subseteq_spec _ _) (update_subseteq data s)).
Qed.

(** X5.  A render pass writes the style cache and the manager only: the
    scroll offset, the dirty flag, the props, the data manager (so no
    recompute is requested from inside a recompute), the timers and the
    re-render requests are what they were, also when [update] throws. *)
Theorem update_touches_cache_and_manager_only data s :
  let s' := (update data s).2 in
  offset s' = offset s ∧ needUpdate s' = needUpdate s
  ∧ props s' = props s ∧ dataManager s' = dataManager s
  ∧ delayUpdateTimer s' = delayUpdateTimer s ∧ timers s' = timers s
  ∧ forceUpdates s' = forceUpdates s.
Proof.
  intros s'. destruct (update_frame data s) as (Hp & Hdm & Ho & Hn & Ht & Hts & Hf).
  by repeat split.
Qed.

(** X6.  Styles are stable from one render pass to a later one as long as
    only scrolling happens in between: an index rendered by both passes
    carries the very same style in both. *)
Theorem styles_stable_across_scrolling data1 data2 (os : list Z) s items1 s1 items2 s2 :
  update data1 s = (Ok items1, s1) →
  update data2 (setScrollOffsets os s1) = (Ok items2, s2) →
  ∀ it1 it2, it1 ∈ items1 → it2 ∈ items2 → index it1 = index it2 →
             style it1 = style it2.
Proof.
  intros H1 H2 it1 it2 Hin1 Hin2 Hidx.
  destruct (update_ok_mounted _ _ _ _ H1) as [m1 Hm1].
  destruct (update_ok_mounted _ _ _ _ H2) as [m2 Hm2].
  destruct (update_ok_inv _ _ _ _ _ Hm1 H1) as (_ & Hall1 & _).
  destruct (update_ok_inv _ _ _ _ _ Hm2 H2) as (_ & Hall2 & _).
  destruct (proj1 (Forall_forall _ _) Hall1 it1 Hin1) as [_ Hc1].
  destruct (proj1 (Forall_forall _ _) Hall2 it2 Hin2) as [_ Hc2].
  destruct (setScrollOffsets_keeps os s1) as (Hk & _).
  assert (styleCache s2 !! index it1 = Some (style it1)) as Hc.
  { pose proof (update_subseteq data2 (setScrollOffsets os s1)) as Hsub.
    rewrite H2 in Hsub. simpl in Hsub.
    apply (proj1 (map_subseteq_spec _ _) Hsub). by rewrite Hk. }
  rewrite Hidx in Hc. congruence.
Qed.

(** X7.  A failed [getStyle] caches nothing: it can only fail for an
    index without a cached style, and it leaves the cache, the offset,
    the dirty flag and the data manager as they were. *)
Theorem getStyle_failure_caches_nothing i (b : option bool) s e s' :
  getStyle i b s = (Throw e, s') →
  styleCache s !! i = None
  ∧ styleCache s' = styleCache s
  ∧ sameOutside s s'.
Proof.
  intros H. pose proof (getStyle_frame i b s) as Hf. rewrite H in Hf.
  split; [|split; [|exact Hf]].
  - rewrite getStyle_eq in H. by destruct (styleCache s !! i).
  - rewrite getStyle_eq in H. destruct (styleCache s !! i); [done|].
    destruct (sizeAndPositionManager s) as [m|]; [|by injection H as _ <-].
    destruct (SAPM.getSizeAndPositionForIndex i m) as [[sp|e'] m']; [done|].
    by injection H as _ <-.
Qed.

(** X8.  Before [componentDidMount] there is no manager: [render] is
    guarded and reports a total size of 0, whereas [update] and
    [getStyle] for an index without a cached style throw a TypeError and
    change nothing; [onStateChange] throws as well, after it has emptied
    the style cache when no count changed. *)
Theorem unmounted_component s :
  sizeAndPositionManager s = None →
  (render s).(innerStyle).2 = normalizeValue 0
  ∧ (∀ data, update data s = (Throw TypeError, s))
  ∧ (∀ i b, styleCache s !! i = None → getStyle i b s = (Throw TypeError, s))
  ∧ (∀ prev, (onStateChange prev s).1 = Throw TypeError
             ∧ (itemCount prev = itemCount (__getState (dataManager s)) →
                  sizeChanged prev (__getState (dataManager s)) = false →
                  styleCache (onStateChange prev s).2 = ∅)
             ∧ forceUpdates (onStateChange prev s).2 = forceUpdates s).
Proof.
  intros Hm. split; [|split; [|split]].
  - unfold render. simpl. by rewrite Hm.
  - intros data. by rewrite update_eq, Hm.
  - intros i b Hc. by rewrite getStyle_eq, Hc, Hm.
  - intros prev. unfold onStateChange, recomputeSizes, sizeChanged. unfold_M.
    destruct (negb (itemCount prev =? itemCount (__getState (dataManager s)))) eqn:E1;
      destruct (itemSize_neq _ _ || number_neq _ _) eqn:E2;
      simpl; rewrite ?Hm; simpl; (split; [done|]); (split; [|done]);
      intros He Hs; try done.
    all: apply negb_true_iff, Z.eqb_neq in E1; done.
Qed.

End render_pass_properties.

(** ** Further properties of scrolling, state changes and the life cycle *)

Section life_cycle_properties.
Context {T : Type}.
Implicit Types (s : VirtualList T) (i : Z) (prev : VirutalListDataManagerState T).

Lemma onStateChange_managerCounts prev s :
  managerCounts (itemCount prev) s →
  ∃ m', (onStateChange prev s).2
        = {| props := props s; dataManager := dataManager s;
             delayUpdateTimer := delayUpdateTimer s; styleCache := ∅;
             sizeAndPositionManager := Some (SAPM.resetItem 0 m');
             needUpdate := needUpdate s; offset := offset s; timers := timers s;
             forceUpdates := S (forceUpdates s) |}
        ∧ (onStateChange prev s).1 = Ok tt
        ∧ SAPM.itemCount m' = itemCount (__getState (dataManager s)).
Proof.
  intros (m & Hm & Hn).
  pose proof (onStateChange_eq prev s m Hm) as Heq. cbv zeta in Heq.
  eexists. rewrite Heq. split; [reflexivity|]. split; [reflexivity|].
  unfold countChanged.
  destruct (itemCount prev =? itemCount (__getState (dataManager s))) eqn:E;
    destruct (sizeChanged prev (__getState (dataManager s))); simpl; try done.
  all: apply Z.eqb_eq in E; congruence.
Qed.

(** X9.  [setScrollOffset] always ends with the given offset stored, and
    calling it a second time with the same value changes nothing more:
    no second recompute is requested. *)
Theorem setScrollOffset_idempotent (scrollOffset : Z) s :
  offset (setScrollOffset scrollOffset s) = scrollOffset
  ∧ setScrollOffset scrollOffset (setScrollOffset scrollOffset s)
    = setScrollOffset scrollOffset s.
Proof.
  pose proof (setScrollOffset_offset scrollOffset s) as H. split; [done|].
  unfold setScrollOffset at 1. by rewrite H, Z.eqb_refl.
Qed.

(** X10.  Any run of [setScrollOffset] calls ends with the offset of the
    last call, never touches the style cache, the manager or the props
    (scrolling invalidates no cached style), and is a no-op altogether
    when every call brings the offset the component already has. *)
Theorem setScrollOffsets_effect (os : list Z) s :
  offset (setScrollOffsets os s) = default (offset s) (last os)
  ∧ styleCache (setScrollOffsets os s) = styleCache s
  ∧ sizeAndPositionManager (setScrollOffsets os s) = sizeAndPositionManager s
  ∧ props (setScrollOffsets os s) = props s
  ∧ (Forall (λ o, o = offset s) os → setScrollOffsets os s = s).
Proof.
  split; [|split; [|split; [|split]]]; try apply setScrollOffsets_keeps.
  - revert s. induction os as [|o os IH]; intros s; [done|].
    unfold setScrollOffsets in *. simpl foldl. rewrite IH, setScrollOffset_offset.
    destruct os as [|o' os]; [done|]. rewrite last_cons_cons.
    destruct (last (o' :: os)) eqn:E; [done|]. by apply last_None in E.
  - revert s. induction os as [|o os IH]; intros s H; [done|].
    apply Forall_cons in H as [-> H].
    unfold setScrollOffsets in *. simpl foldl.
    assert (setScrollOffset (offset s) s = s) as ->.
    { unfold setScrollOffset. by rewrite Z.eqb_refl. }
    by apply IH.
Qed.

(** X11.  The manager's item count follows the state of the data
    manager: [componentDidMount] creates the manager with the count of
    the state, [onStateChange] brings a manager that held the previous
    count to the current one, and render passes, [getStyle] and scrolling
    leave the count alone. *)
Theorem manager_count_follows_state :
  (∀ s, managerCounts (itemCount (__getState (dataManager s))) (componentDidMount s)
        ∧ __getState (dataManager (componentDidMount s)) = __getState (dataManager s))
  ∧ (∀ prev s,
       managerCounts (itemCount prev) s →
       managerCounts (itemCount (__getState (dataManager s))) (onStateChange prev s).2
       ∧ dataManager (onStateChange prev s).2 = dataManager s)
  ∧ (∀ n (data : list T) s, managerCounts n s → managerCounts n (update data s).2)
  ∧ (∀ n i (b : option bool) s, managerCounts n s → managerCounts n (getStyle i b s).2)
  ∧ (∀ n (o : Z) s, managerCounts n s → managerCounts n (setScrollOffset o s)).
Proof.
  split; [|split; [|split; [|split]]].
  - intros s. split; [|done]. eexists. split; reflexivity.
  - intros prev s H.
    destruct (onStateChange_managerCounts prev s H) as (m' & -> & _ & Hc).
    split; [|done]. eexists. split; [reflexivity|]. exact Hc.
  - intros n data s.
    apply (update_respects (λ s s', managerCounts n s → managerCounts n s')).
    + done.
    + intros s1 s2 s3 H1 H2 H. by apply H2, H1.
    + intros s0 m c o ov Hm (m0 & Hm0 & Hn).
      eexists. split; [reflexivity|]. rewrite getVisibleRange_itemCount. congruence.
    + intros. by apply getStyle_managerCounts.
  - intros. by apply getStyle_managerCounts.
  - intros n o s (m & Hm & Hn). exists m. split; [|done].
    destruct (setScrollOffset_keeps o s) as (_ & -> & _). done.
Qed.

(** X12.  A state change resets the choice between sticky and normal: on
    a component whose manager held the previous count, [getStyle] for an
    index of the current list after [onStateChange] computes the style
    afresh, sticky when asked for a sticky one and normal otherwise,
    whatever was cached under the index before. *)
Theorem onStateChange_resets_stickiness prev s i (b : option bool) :
  managerCounts (itemCount prev) s →
  0 ≤ i < itemCount (__getState (dataManager s)) →
  ∃ st s2,
    getStyle i b (onStateChange prev s).2 = (Ok st, s2)
    ∧ (if truthy b
       then stickyStyle (VirtualListProps.scrollDirection (props s)) st
       else normalStyle st)
    ∧ styleCache s2 = {[ i := st ]}.
Proof.
  intros H Hi.
  destruct (onStateChange_managerCounts prev s H) as (m' & -> & _ & Hc).
  rewrite getStyle_eq. simpl. rewrite lookup_empty.
  destruct (getSizeAndPositionForIndex_ok i (SAPM.resetItem 0 m'))
    as (sp & m2 & -> & _ & _); [simpl; lia|].
  eexists _, _. split; [reflexivity|]. split; [|done].
  destruct (truthy b); [apply itemStyle_sticky|apply itemStyle_normal].
Qed.

(** X13.  [onStateChange] itself requests no recompute and does not set
    the dirty flag: it leaves the data manager, the offset and the flag
    as they are and asks for one re-render, and when the component was
    not dirty the [componentDidUpdate] of that re-render requests
    nothing either. *)
Theorem onStateChange_requests_no_recompute prev s (m : SAPM.t) :
  sizeAndPositionManager s = Some m →
  let s1 := (onStateChange prev s).2 in
  dataManager s1 = dataManager s
  ∧ needUpdate s1 = needUpdate s
  ∧ offset s1 = offset s
  ∧ forceUpdates s1 = S (forceUpdates s)
  ∧ (needUpdate s = false → componentDidUpdate s1 = s1)
  ∧ (needUpdate s = true →
       dataManager (componentDidUpdate s1) = __nextTickUpdate (dataManager s)).
Proof.
  intros Hm s1. pose proof (onStateChange_eq prev s m Hm) as Heq. cbv zeta in Heq.
  unfold s1. rewrite Heq. simpl. repeat split.
  - intros Hn. unfold componentDidUpdate, updateVirutalListDataRange. simpl.
    by rewrite Hn.
  - intros Hn. unfold componentDidUpdate, updateVirutalListDataRange. simpl.
    by rewrite Hn.
Qed.

(** X14.  [componentWillUnmount] writes nothing of the component itself:
    style cache, manager, offset, dirty flag, props and re-render
    requests stay, and [delayUpdateTimer] is not reset.  It calls
    [destroy] once, on the data manager as it was; a timer that was set
    is no longer armed and no other timer is touched.  A second unmount
    clears no further timer and only calls [destroy] again. *)
Theorem componentWillUnmount_effect s :
  let s' := componentWillUnmount s in
  styleCache s' = styleCache s
  ∧ sizeAndPositionManager s' = sizeAndPositionManager s
  ∧ offset s' = offset s ∧ needUpdate s' = needUpdate s
  ∧ props s' = props s ∧ forceUpdates s' = forceUpdates s
  ∧ delayUpdateTimer s' = delayUpdateTimer s
  ∧ dataManager s' = destroy (dataManager s)
  ∧ timers s' = match delayUpdateTimer s with
                | Some t => timers s ∖ {[t]}
                | None => timers s
                end
  ∧ componentWillUnmount s' = set_dataManager (destroy (dataManager s')) s'.
Proof.
  intros s'. unfold s', componentWillUnmount.
  destruct (delayUpdateTimer s) as [t|] eqn:Ht; simpl; rewrite ?Ht; simpl.
  - repeat split.
    unfold set_dataManager, clearTimeout. simpl. f_equal.
    apply difference_twice_L.
  - by repeat split.
Qed.

Lemma deferredCallback_offset s : offset (deferredCallback s) = offset s.
Proof.
  unfold deferredCallback.
  destruct (__pending (dataManager s) && __updater (dataManager s)); [|done].
  pose proof (update_frame
                (data (__getState (dataManager
                   (set_dataManager (setPending false (dataManager s)) s))))
                (set_dataManager (setPending false (dataManager s)) s))
    as (_ & _ & Ho & _).
  destruct (update _ _) as [r s2]. simpl in *. exact Ho.
Qed.

(** X15.  The first [componentDidUpdate] of a component always requests a
    recompute, because the dirty flag starts raised: after construction
    and [componentDidMount] it calls [__nextTickUpdate] once on the data
    manager with both callbacks registered, lowers the flag, and a second
    [componentDidUpdate] does nothing.  The component starts at offset 0
    with an empty style cache, and unless the data manager is destroyed
    the deferred callback then runs one recompute at offset 0. *)
Theorem first_componentDidUpdate_requests (p : VirtualListProps.t)
  (dm : VirutalListDataManager T) :
  let mounted := componentDidMount (construct p dm) in
  let s := componentDidUpdate mounted in
  __updater (dataManager mounted) = true
  ∧ __onStateChange (dataManager mounted) = true
  ∧ __pending (dataManager mounted) = __pending dm
  ∧ dataManager s = __nextTickUpdate (dataManager mounted)
  ∧ needUpdate s = false
  ∧ offset s = 0 ∧ styleCache s = ∅
  ∧ componentDidUpdate s = s
  ∧ (__destroyed dm = false →
       executions (deferredCallback s) = S (length (__delivered dm))
       ∧ offset (deferredCallback s) = 0).
Proof.
  intros mounted s.
  assert (__destroyed dm = false → __pending (dataManager s) = true) as Hp.
  { intros Hd. unfold s, mounted. simpl. by rewrite nextTickUpdate_live. }
  do 8 (split; [reflexivity|]). intros Hd. specialize (Hp Hd).
  assert (__updater (dataManager s) = true) as Hu.
  { unfold s, mounted. simpl. by rewrite nextTickUpdate_live. }
  split.
  - rewrite (deferredCallback_executions s Hp Hu).
    unfold executions, s, mounted. simpl. by rewrite nextTickUpdate_live.
  - by rewrite deferredCallback_offset.
Qed.

End life_cycle_properties.

(** ** The further statements at concrete lists *)

(** An instance: the list scrolled to offset 65. *)
Lemma update_result_shape_witness :
  let s := set_offset 65 (exampleList VERTICAL 300 50) in
  index <$> renderedItems (update (data exampleState) s).1 = [2; 3; 4]
  ∧ Forall (λ it, item it = arrayGet (data exampleState) (index it))
           (renderedItems (update (data exampleState) s).1).
Proof.
  intros s.
  destruct (update_result_shape (data exampleState) s exampleManager
              (renderedItems (update (data exampleState) s).1)
              (update (data exampleState) s).2)
    as (H1 & H2 & _).
  - reflexivity.
  - vm_compute. reflexivity.
  - split; [|exact H2]. rewrite H1. vm_compute. reflexivity.
Defined.

(** An instance: the fresh list rendered at offset 0. *)
Lemma update_caches_rendered_witness :
  let s := exampleList VERTICAL 300 50 in
  dom (styleCache (update (data exampleState) s).2)
  = dom (styleCache s) ∪ list_to_set (index <$> renderedItems (update (data exampleState) s).1).
Proof.
  intros s.
  apply (update_caches_rendered (data exampleState) s
           (renderedItems (update (data exampleState) s).1)
           (update (data exampleState) s).2).
  vm_compute. reflexivity.
Defined.

(** An instance: one sticky index, rendered at offset 0. *)
Lemma update_indices_NoDup_witness :
  NoDup (index <$> renderedItems
           (update (data exampleState) (exampleList VERTICAL 300 50)).1).
Proof.
  apply (update_indices_NoDup (data exampleState) (exampleList VERTICAL 300 50)
           (renderedItems (update (data exampleState) (exampleList VERTICAL 300 50)).1)
           (update (data exampleState) (exampleList VERTICAL 300 50)).2).
  - apply NoDup_singleton.
  - vm_compute. reflexivity.
Defined.

(** An instance: the sticky style of item 2 survives a pass at offset 65. *)
Lemma update_keeps_cached_styles_witness :
  let s1 := (update (data exampleState) (exampleList VERTICAL 300 50)).2 in
  let st := normalizeStyle
              (itemStyle VERTICAL true {| SAPM.offset := 40; SAPM.size := 20 |}) in
  styleCache s1 !! 2 = Some st
  ∧ styleCache (update (data exampleState) (set_offset 65 s1)).2 !! 2 = Some st.
Proof.
  intros s1 st.
  assert (styleCache s1 !! 2 = Some st) as H by (vm_compute; reflexivity).
  split; [exact H|].
  apply (update_keeps_cached_styles (data exampleState) (set_offset 65 s1) 2 st).
  exact H.
Defined.

(** An instance: a pass at offset 0, a scroll to 25, a second pass. *)
Lemma styles_stable_across_scrolling_witness :
  let s := exampleList VERTICAL 300 50 in
  let r1 := update (data exampleState) s in
  let r2 := update (data exampleState) (setScrollOffsets [25] r1.2) in
  Forall (λ it1, Forall (λ it2, index it1 = index it2 → style it1 = style it2)
                        (renderedItems r2.1))
         (renderedItems r1.1).
Proof.
  intros s r1 r2.
  apply Forall_forall. intros it1 H1. apply Forall_forall. intros it2 H2.
  apply (styles_stable_across_scrolling (data exampleState) (data exampleState) [25]
           s (renderedItems r1.1) r1.2 (renderedItems r2.1) r2.2);
    [vm_compute; reflexivity|vm_compute; reflexivity|exact H1|exact H2].
Defined.

(** An instance: index 7 of a list of five items. *)
Lemma getStyle_failure_caches_nothing_witness :
  let s := exampleList VERTICAL 300 50 in
  (getStyle 7 None s).1 = Throw (IndexOutOfRange 7)
  ∧ styleCache (getStyle 7 None s).2 = styleCache s.
Proof.
  intros s.
  assert (getStyle 7 None s = (Throw (IndexOutOfRange 7), (getStyle 7 None s).2)) as H
    by (vm_compute; reflexivity).
  split; [by rewrite H|].
  apply (getStyle_failure_caches_nothing 7 None s _ _ H).
Defined.

(** An instance: the component before [componentDidMount]. *)
Lemma unmounted_component_witness :
  let s := construct {| VirtualListProps.width := 300; VirtualListProps.height := 50;
                        VirtualListProps.scrollDirection := VERTICAL |}
             {| __state := exampleState; __updater := false; __onStateChange := false;
                __pending := false; __destroyed := false; __delivered := [] |} in
  update (data exampleState) s = (Throw TypeError, s)
  ∧ (render s).(innerStyle).2 = normalizeValue 0.
Proof.
  intros s. destruct (unmounted_component s) as (H1 & H2 & _); [reflexivity|].
  split; [apply H2|exact H1].
Defined.

(** An instance: three scroll calls, and three calls with the current
    offset. *)
Lemma setScrollOffsets_effect_witness :
  offset (setScrollOffsets [10; 20; 65] (exampleList VERTICAL 300 50)) = 65
  ∧ setScrollOffsets [0; 0; 0] (exampleList VERTICAL 300 50)
    = exampleList VERTICAL 300 50.
Proof.
  split.
  - apply (setScrollOffsets_effect [10; 20; 65] (exampleList VERTICAL 300 50)).
  - apply (setScrollOffsets_effect [0; 0; 0] (exampleList VERTICAL 300 50)).
    repeat constructor.
Defined.

(** An instance: the state changes from four items to five. *)
Lemma manager_count_follows_state_witness :
  let prev := {| itemCount := 4; itemSize := SizeFixed 20; estimatedSize := None;
                 overscan := 0; stickyIndices := Some [2]; data := data exampleState |} in
  let s := mountedList prev VERTICAL 300 50 in
  let changed :=
    set_dataManager
      {| __state := exampleState; __updater := true; __onStateChange := true;
         __pending := false; __destroyed := false; __delivered := [] |} s in
  managerCounts 4 changed
  ∧ managerCounts 5 (onStateChange prev changed).2.
Proof.
  intros prev s changed.
  destruct (@manager_count_follows_state string) as (H1 & H2 & _).
  destruct (H1 (construct
                  {| VirtualListProps.width := 300; VirtualListProps.height := 50;
                     VirtualListProps.scrollDirection := VERTICAL |}
                  {| __state := prev; __updater := false; __onStateChange := false;
                     __pending := false; __destroyed := false; __delivered := [] |}))
    as [(m & Hm & Hc) _].
  assert (managerCounts 4 changed) as H by (exists m; split; [exact Hm|exact Hc]).
  split; [exact H|]. apply (H2 prev changed H).
Defined.

(** An instance: item 2 cached as a normal item, then asked for as a
    sticky one after a state change. *)
Lemma onStateChange_resets_stickiness_witness :
  let s := (getStyle 2 None (exampleList VERTICAL 300 50)).2 in
  (∃ st, styleCache s !! 2 = Some st ∧ position (raw st) = absolute)
  ∧ ∃ st s2, getStyle 2 (Some true) (onStateChange exampleState s).2 = (Ok st, s2)
             ∧ position (raw st) = sticky.
Proof.
  intros s. split.
  - eexists. split; [vm_compute; reflexivity|reflexivity].
  - destruct (onStateChange_resets_stickiness exampleState s 2 (Some true))
      as (st & s2 & H1 & H2 & _).
    + exists (default exampleManager (sizeAndPositionManager s)).
      split; vm_compute; reflexivity.
    + split; [discriminate|reflexivity].
    + exists st, s2. split; [exact H1|]. apply H2.
Defined.

(** An instance: a state change on a component that is not dirty. *)
Lemma onStateChange_requests_no_recompute_witness :
  let s := deferredCallback (setScrollOffset 25 (exampleList VERTICAL 300 50)) in
  let s1 := (onStateChange exampleState s).2 in
  needUpdate s = false
  ∧ dataManager s1 = dataManager s
  ∧ componentDidUpdate s1 = s1.
Proof.
  intros s s1.
  assert (needUpdate s = false) as Hn by (vm_compute; reflexivity).
  destruct (onStateChange_requests_no_recompute exampleState s
              (default exampleManager (sizeAndPositionManager s)))
    as (H1 & _ & _ & _ & H5 & _).
  - vm_compute. reflexivity.
  - split; [exact Hn|]. split; [exact H1|]. apply H5. exact Hn.
Defined.

(** ** Render passes after a state change *)

Section passes.
Context {T : Type}.
Implicit Types (s : VirtualList T) (i : Z) (data : list T).

(** One render pass under the invariant. *)
Lemma update_under_renderInv data d n L s :
  renderInv d n L s → 0 < n → Forall (λ i, 0 ≤ i < n) L →
  ∃ items s',
    update data s = (Ok items, s')
    ∧ Forall (goodItem data d L) items
    ∧ (∃ rest, index <$> items = L ++ rest)
    ∧ renderInv d n L s'.
Proof.
  intros (Hd & (m & Hm & Hn) & Hc & HL & Hcs) Hpos Hvalid.
  destruct (getVisibleRange_defined (getContainerSize s) (offset s)
              (overscan (__getState (dataManager s))) m) as (a & e & m' & Hr & Ha & He & Hn');
    [lia|done|].
  set (s1 := set_sizeAndPositionManager (Some m') s).
  assert (updateInv d n L (dataManager s) (offset s) s1) as Hinv.
  { repeat split; try done. exists m'. split; [done|lia]. }
  assert (∃ items1 s2,
            match stickyIndices (__getState (dataManager s)) with
            | Some l => foldM (pushItem data (Some true)) l [] s1
            | None => (Ok [], s1)
            end = (Ok items1, s2)
            ∧ updateInv d n L (dataManager s) (offset s) s2
            ∧ index <$> items1 = L
            ∧ Forall (goodItem data d L) items1)
    as (items1 & s2 & Hsticky & Hinv2 & Hidx1 & Hgood1).
  { subst L. destruct (stickyIndices (__getState (dataManager s))) as [l|]; simpl in *.
    - destruct (sticky_loop data d _ l _ _ l [] s1 Hinv) as (its & s2 & Hf & ?).
      + apply Forall_forall. intros i Hi. split; [|done].
        by apply (proj1 (Forall_forall _ _) Hvalid).
      + by exists its, s2.
    - by exists [], s1. }
  rewrite <- HL in Hinv2.
  destruct (range_loop data d _ _ _ (stickyIndices (__getState (dataManager s)))
              (seqZ a (e - a + 1)) items1 s2 Hinv2)
    as (items2 & s3 & Hf & Hinv3 & Hidx2 & Hgood2).
  { apply Forall_forall. intros i Hi. apply elem_of_seqZ in Hi. lia. }
  rewrite HL in Hinv3, Hgood2.
  assert (update data s = (Ok (items1 ++ items2), s3)) as Heq.
  { rewrite update_eq, Hm. cbv zeta. rewrite Hr. simpl. fold s1.
    rewrite Hsticky. exact Hf. }
  exists (items1 ++ items2), s3. split; [exact Heq|]. split; [by apply Forall_app|].
  split; [exists (index <$> items2); by rewrite fmap_app, Hidx1|].
  destruct Hinv3 as (Hd3 & Hm3 & Hc3 & _).
  destruct (update_frame data s) as (Hp & Hdm & _). rewrite Heq in Hp, Hdm.
  simpl in Hp, Hdm.
  repeat split; try done.
  - by rewrite Hdm.
  - unfold getContainerSize in *. by rewrite Hp.
Qed.

Lemma setScrollOffset_state (o : Z) s :
  __getState (dataManager (setScrollOffset o s)) = __getState (dataManager s).
Proof.
  unfold setScrollOffset, updateVirutalListDataRange.
  destruct (negb (offset s =? o)); [|done]. simpl.
  unfold __nextTickUpdate.
  by destruct (__destroyed (dataManager s)), (__pending (dataManager s)).
Qed.

Lemma setScrollOffset_renderInv d n L (o : Z) s :
  renderInv d n L s → renderInv d n L (setScrollOffset o s).
Proof.
  intros (Hd & (m & Hm & Hn) & Hc & HL & Hcs).
  destruct (setScrollOffset_keeps o s) as (K1 & K2 & K3).
  unfold renderInv, managerCounts, getContainerSize.
  rewrite K1, K2, K3, setScrollOffset_state. repeat split; try done.
  by exists m.
Qed.

Lemma scrollAndRender_under_renderInv data d n L (os : list Z) : ∀ s,
  renderInv d n L s → 0 < n → Forall (λ i, 0 ≤ i < n) L →
  Forall (λ r, ∃ items, r = Ok items
                        ∧ Forall (goodItem data d L) items
                        ∧ ∃ rest, index <$> items = L ++ rest)
         (scrollAndRender data os s).1
  ∧ length (scrollAndRender data os s).1 = length os
  ∧ renderInv d n L (scrollAndRender data os s).2.
Proof.
  induction os as [|o os IH]; intros s Hinv Hpos Hvalid.
  { simpl. split; [apply Forall_nil_2|]. split; [done|exact Hinv]. }
  simpl.
  destruct (update_under_renderInv data d n L (setScrollOffset o s))
    as (items & s1 & Heq & Hgood & Hrest & Hinv1); [by apply setScrollOffset_renderInv|done|done|].
  rewrite Heq.
  destruct (IH s1 Hinv1 Hpos Hvalid) as (IH1 & IH2 & IH3).
  destruct (scrollAndRender data os s1) as [rs s2]. simpl in *.
  split; [|split; [by rewrite IH2|done]].
  constructor; [|done]. by exists items.
Qed.

(** X16.  After a state change on a component whose manager held the
    previous count, with a non-empty list, a container of positive extent
    and sticky indices that are indices of the list, every later render
    pass returns a list, whatever scrolling happens in between: the list
    starts with the sticky indices, every entry carries [data[index]],
    every sticky index has a sticky style and every other index a normal
    one. *)
Theorem renders_after_state_change (prev : VirutalListDataManagerState T) data
  (os : list Z) s :
  let st := __getState (dataManager s) in
  let L := default [] (stickyIndices st) in
  let d := VirtualListProps.scrollDirection (props s) in
  managerCounts (itemCount prev) s →
  0 < itemCount st →
  0 < getContainerSize s →
  Forall (λ i, 0 ≤ i < itemCount st) L →
  Forall (λ r, ∃ items, r = Ok items
                        ∧ Forall (goodItem data d L) items
                        ∧ ∃ rest, index <$> items = L ++ rest)
         (scrollAndRender data os (onStateChange prev s).2).1
  ∧ length (scrollAndRender data os (onStateChange prev s).2).1 = length os.
Proof.
  intros st L d Hcount Hpos Hcs Hvalid.
  destruct (onStateChange_managerCounts prev s Hcount) as (m' & Heq & _ & Hc).
  destruct (scrollAndRender_under_renderInv data d (itemCount st) L os
              (onStateChange prev s).2) as (H1 & H2 & _); [|done|done|by split].
  rewrite Heq. split; [done|]. split; [by eexists|].
  split; [apply cacheAgrees_empty|]. by split.
Qed.

(** X17.  The same holds from the start: after construction and
    [componentDidMount], with a non-empty list, a container of positive
    extent and sticky indices that are indices of the list, every render
    pass returns a list with the sticky indices first and the styles
    sticky exactly for them, whatever scrolling happens in between. *)
Theorem renders_after_mount (p : VirtualListProps.t) (dm : VirutalListDataManager T)
  data (os : list Z) :
  let st := __getState dm in
  let L := default [] (stickyIndices st) in
  let d := VirtualListProps.scrollDirection p in
  let s := componentDidMount (construct p dm) in
  0 < itemCount st →
  0 < getContainerSize s →
  Forall (λ i, 0 ≤ i < itemCount st) L →
  Forall (λ r, ∃ items, r = Ok items
                        ∧ Forall (goodItem data d L) items
                        ∧ ∃ rest, index <$> items = L ++ rest)
         (scrollAndRender data os s).1
  ∧ length (scrollAndRender data os s).1 = length os.
Proof.
  intros st L d s Hpos Hcs Hvalid.
  destruct (scrollAndRender_under_renderInv data d (itemCount st) L os s)
    as (H1 & H2 & _); [|done|done|by split].
  split; [done|]. split; [by eexists|].
  split; [apply cacheAgrees_empty|]. by split.
Qed.

End passes.

(** An instance: the example list told that only its data changed, then
    scrolled to 0, 25 and 65 with a render pass after each. *)
Lemma renders_after_state_change_witness :
  let s := exampleList VERTICAL 300 50 in
  length (scrollAndRender (data exampleState) [0; 25; 65]
            (onStateChange exampleState s).2).1 = 3%nat
  ∧ Forall (λ r, ∃ items, r = Ok items ∧ ∃ rest, index <$> items = [2] ++ rest)
           (scrollAndRender (data exampleState) [0; 25; 65]
              (onStateChange exampleState s).2).1.
Proof.
  intros s.
  destruct (renders_after_state_change exampleState (data exampleState) [0; 25; 65] s)
    as (H1 & H2).
  - exists exampleManager. split; reflexivity.
  - reflexivity.
  - reflexivity.
  - change (Forall (λ i, 0 ≤ i < 5) [2]).
    constructor; [split; [discriminate|reflexivity]|constructor].
  - split; [exact H2|].
    eapply Forall_impl; [exact H1|]. intros r (items & Hr & _ & Hrest).
    exists items. split; [exact Hr|exact Hrest].
Defined.

(** An instance: the example list right after its mount. *)
Lemma renders_after_mount_witness :
  length (scrollAndRender (data exampleState) [0; 25; 65]
            (exampleList VERTICAL 300 50)).1 = 3%nat.
Proof.
  apply (renders_after_mount
           {| VirtualListProps.width := 300; VirtualListProps.height := 50;
              VirtualListProps.scrollDirection := VERTICAL |}
           {| __state := exampleState; __updater := false; __onStateChange := false;
              __pending := false; __destroyed := false; __delivered := [] |}
           (data exampleState) [0; 25; 65]).
  - reflexivity.
  - reflexivity.
  - change (Forall (λ i, 0 ≤ i < 5) [2]).
    constructor; [split; [discriminate|reflexivity]|constructor].
Defined.


(** An instance: the example list after its first [componentDidUpdate]. *)
Lemma first_componentDidUpdate_requests_witness :
  let s := componentDidUpdate (exampleList VERTICAL 300 50) in
  __pending (dataManager s) = true
  ∧ executions (deferredCallback s) = 1%nat.
Proof.
  intros s.
  destruct (first_componentDidUpdate_requests
              {| VirtualListProps.width := 300; VirtualListProps.height := 50;
                 VirtualListProps.scrollDirection := VERTICAL |}
              {| __state := exampleState; __updater := false; __onStateChange := false;
                 __pending := false; __destroyed := false; __delivered := [] |})
    as (_ & _ & _ & Hdm & _ & _ & _ & _ & Hfire).
  split; [reflexivity|]. apply Hfire. reflexivity.
Defined.
